(** * Asset-tile generation of the editor's [ModelPlugin]

    Shallow embedding of the tile subsystem of
    [src/renderer/editor/plugins.cpp] (struct [ModelPlugin]): the request
    router [createTile], the admission ring and its overflow array
    ([pushTileQueue], [popTileQueue]), the per-tick state machine [update]
    with the two [renderTile] overloads and [renderPrefabSecondStage], the
    encoder [saveAsDDS], and one iteration of the background worker loop
    [createTextureTileTask].

    The plugin's fields are a record; every call of an engine collaborator
    (resource managers, universe, pipeline, bgfx, file system, log) is
    recorded as an [Event] appended to a trace, and every answer a
    collaborator gives is read from an [Env] record passed to the
    operation. *)

From Stdlib Require Import List ZArith Lia Bool String Permutation.
From Stdlib Require Import DecimalString.
Import ListNotations.
Local Open Scope string_scope.
Local Open Scope list_scope.
Local Open Scope Z_scope.

(** ** Engine types at the boundary *)

(** [Entity] wraps an [int index]; [INVALID_ENTITY] has index -1 and
    [isValid] tests [index >= 0]. *)
Definition Entity := Z.
Definition INVALID_ENTITY : Entity := -1.
Definition isValid (e : Entity) : bool := 0 <=? e.

Definition TextureHandle := Z.
Definition BGFX_INVALID_HANDLE : TextureHandle := 65535.

(** A camera matrix, by name: its entries are not looked at. *)
Definition Matrix := Z.

(** The resource types [createTile] compares its argument against; any
    other type hash is [Other_TYPE]. *)
Inductive ResourceType : Type :=
| Texture_TYPE
| Material_TYPE
| Shader_TYPE
| Model_TYPE
| PrefabResource_TYPE
| Other_TYPE (hash : Z).

(** A [Resource*] handed out by a resource manager: the manager's type and
    the path it was loaded from (a manager returns the same resource for the
    same path). *)
Record Resource : Type := mkResource {
  getType : ResourceType;
  getPath : string
}.

(** ** Containers *)

(** Modelled from the spec: [Array<T>] (engine/array.h is not part of the
    sources) is the unbounded ordered sequence that holds the pending image
    requests and the overflowed 3D requests.  The plugin uses it through
    [push]/[emplace] (append at the end), [back] (the last element), [pop]
    (remove the last element) and [empty]. *)
Module Array.
Definition push {A} (a : list A) (x : A) : list A := a ++ [x].
Definition back {A} (d : A) (a : list A) : A := last a d.
Definition pop {A} (a : list A) : list A := removelast a.
Definition empty {A} (a : list A) : bool :=
  match a with [] => true | _ :: _ => false end.
End Array.

(** Modelled from the spec: [Queue<Resource*, 8>] (engine/queue.h is not
    part of the sources) is the bounded admission ring of capacity N = 8,
    first in first out: [push] at the back, [front]/[pop] at the front,
    [full] when it holds 8 elements.  [push] is not guarded here: that the
    ring never exceeds its capacity is proved, not built in. *)
Module Queue.
Definition capacity : nat := 8.
Definition push {A} (q : list A) (x : A) : list A := q ++ [x].
Definition pop {A} (q : list A) : list A := tl q.
Definition empty {A} (q : list A) : bool :=
  match q with [] => true | _ :: _ => false end.
Definition full {A} (q : list A) : bool := Nat.eqb (List.length q) capacity.
End Queue.

(** ** Plugin state *)

(** [ModelPlugin::TileData] (the fields the tile state machine uses). *)
Record TileData : Type := mkTileData {
  m_entity_in_fly : Entity;
  frame_countdown : Z;
  path_hash : Z;
  texture : TextureHandle;
  queue : list Resource;
  paths : list string
}.

(** [ModelPlugin::TextureTileCreator]; [semaphore] is the count of the
    counting semaphore. *)
Record TextureTileCreator : Type := mkTextureTileCreator {
  shutdown : bool;
  semaphore : Z;
  tiles : list string
}.

(** ** Effects *)

Inductive Event : Type :=
| EvLoad (r : Resource)                 (* manager->load(path) *)
| EvUnload (r : Resource)               (* getResourceManager().unload(r) *)
| EvOnLoaded (m : Resource)             (* model->onLoaded<..>(this) *)
| EvRenderTile (r : Resource)           (* entry of either renderTile overload *)
| EvLogFailedToLoadResource (path : string)  (* update: "Failed to load " << resource->getPath() *)
| EvLogFailedToLoadTile (tile : string)      (* worker: "Failed to load " << tile *)
| EvLogFailedToSave (out_path : string)      (* worker: "Failed to save " << out_path *)
| EvCopyFile (from to : string)
| EvFileOpenRead (path : string)
| EvStbiLoad (path : string)
| EvResize (path : string)              (* stbir_resize_uint8 of the decoded image *)
| EvFileWrite (path : string)           (* saveAsDDS wrote the compressed tile *)
| EvCreateEntity (e : Entity)
| EvInstantiatePrefab (r : Resource) (e : Entity)
| EvSetModelInstancePath (e : Entity) (path : string)
| EvOverrideMatrix (m : Matrix)         (* renderTile: mtx = *in_mtx *)
| EvSetCameraMatrix
| EvPipelineRender
| EvCreateTexture (t : TextureHandle)
| EvBlit (t : TextureHandle)
| EvReadTexture (t : TextureHandle)
| EvDestroyTexture (t : TextureHandle)
| EvDestroyEntity (e : Entity)
| EvAssertFailed.

(** What the collaborators answer during one call. *)
Record Env : Type := mkEnv {
  isFailure : Resource -> bool;
  isReady : Resource -> bool;
  has_render_scene : bool;          (* universe->getScene(MODEL_INSTANCE_TYPE) != nullptr *)
  has_renderer : bool;              (* getPlugin("renderer") != nullptr *)
  createEntity : Entity;
  instantiatePrefab : Resource -> Entity;
  hasComponent : Entity -> bool;    (* hasComponent(e, MODEL_INSTANCE_TYPE) *)
  getModelInstanceModel : Entity -> option Resource;
  createTexture2D : TextureHandle;
  crn_compress_ok : bool;           (* crn_compress returned a block *)
  file_create : string -> bool;     (* file.open(path, CREATE_AND_WRITE) *)
  file_open : string -> bool;       (* file.open(path, OPEN_AND_READ) *)
  crn_decompress_ok : string -> bool;
  stbi_load_ok : string -> bool;
  copyFile_ok : string -> string -> bool
}.

Record World : Type := mkWorld {
  m_tile : TileData;
  m_texture_tile_creator : TextureTileCreator;
  trace : list Event
}.

(** State monad over the world. *)
Definition Cmd (A : Type) : Type := World -> A * World.

Definition ret {A} (a : A) : Cmd A := fun w => (a, w).
Definition bind {A B} (c : Cmd A) (k : A -> Cmd B) : Cmd B :=
  fun w => let (a, w') := c w in k a w'.

Notation "x <- c ;; k" := (bind c (fun x => k))
  (at level 61, c at next level, right associativity).
Notation "c ;; k" := (bind c (fun _ => k))
  (at level 61, right associativity).

Definition exec {A} (c : Cmd A) (w : World) : World := snd (c w).
Definition result {A} (c : Cmd A) (w : World) : A := fst (c w).

Definition get_tile : Cmd TileData := fun w => (m_tile w, w).
Definition put_tile (t : TileData) : Cmd unit :=
  fun w => (tt, mkWorld t (m_texture_tile_creator w) (trace w)).
Definition get_creator : Cmd TextureTileCreator :=
  fun w => (m_texture_tile_creator w, w).
Definition put_creator (c : TextureTileCreator) : Cmd unit :=
  fun w => (tt, mkWorld (m_tile w) c (trace w)).
Definition emit (e : Event) : Cmd unit :=
  fun w => (tt, mkWorld (m_tile w) (m_texture_tile_creator w) (trace w ++ [e])).

Definition set_m_entity_in_fly (e : Entity) (t : TileData) : TileData :=
  mkTileData e (frame_countdown t) (path_hash t) (texture t) (queue t) (paths t).
Definition set_frame_countdown (n : Z) (t : TileData) : TileData :=
  mkTileData (m_entity_in_fly t) n (path_hash t) (texture t) (queue t) (paths t).
Definition set_path_hash (h : Z) (t : TileData) : TileData :=
  mkTileData (m_entity_in_fly t) (frame_countdown t) h (texture t) (queue t) (paths t).
Definition set_texture (x : TextureHandle) (t : TileData) : TileData :=
  mkTileData (m_entity_in_fly t) (frame_countdown t) (path_hash t) x (queue t) (paths t).
Definition set_queue (q : list Resource) (t : TileData) : TileData :=
  mkTileData (m_entity_in_fly t) (frame_countdown t) (path_hash t) (texture t) q (paths t).
Definition set_paths (p : list string) (t : TileData) : TileData :=
  mkTileData (m_entity_in_fly t) (frame_countdown t) (path_hash t) (texture t) (queue t) p.

Definition modify_tile (f : TileData -> TileData) : Cmd unit :=
  t <- get_tile ;; put_tile (f t).

(** The state the constructor leaves: the member initializers of
    [TileData] and [TextureTileCreator] ([path_hash] is uninitialized in
    the source; 0 stands for it). *)
Definition init_world : World :=
  mkWorld (mkTileData INVALID_ENTITY (-1) 0 BGFX_INVALID_HANDLE [] [])
          (mkTextureTileCreator false 0 [])
          [].

(** [StaticString<MAX_PATH_LENGTH>(".lumix/asset_tiles/", hash, ".dds")]. *)
Definition tile_path (hash : Z) : string :=
  (".lumix/asset_tiles/" ++ NilZero.string_of_uint (N.to_uint (Z.to_N hash)) ++ ".dds")%string.

Definition tile_texture_dds : string := "models/editor/tile_texture.dds".
Definition tile_material_dds : string := "models/editor/tile_material.dds".
Definition tile_shader_dds : string := "models/editor/tile_shader.dds".

Section ModelPlugin.

(** Pure engine functions the plugin calls. *)
Variable hasExtension : string -> string -> bool.   (* PathUtils::hasExtension *)
Variable crc32 : string -> Z.                       (* crc32(const char* ) *)
Variable Path_getHash : string -> Z.                (* Path::getHash() *)

(** [bool saveAsDDS(path, image_data, w, h) const] *)
Definition saveAsDDS (env : Env) (path : string) : Cmd bool :=
  if negb (crn_compress_ok env) then ret false
  else if file_create env path then
    emit (EvFileWrite path) ;;
    ret true
  else ret false.

(** [copyFile(from, to)] of editor/utils.h: the call is an event, its
    boolean result comes from the environment. *)
Definition copyFile (env : Env) (from to : string) : Cmd bool :=
  emit (EvCopyFile from to) ;;
  ret (copyFile_ok env from to).

(** The resource [manager->load(path)] returns in [pushTileQueue]. *)
Definition load (path : string) : Resource :=
  if hasExtension path "fab"
  then mkResource PrefabResource_TYPE path
  else mkResource Model_TYPE path.

Definition pushTileQueue (path : string) : Cmd unit :=
  t <- get_tile ;;
  (if Queue.full (queue t) then emit EvAssertFailed else ret tt) ;;
  let resource := load path in
  emit (EvLoad resource) ;;
  modify_tile (fun t => set_queue (Queue.push (queue t) resource) t).

Definition popTileQueue : Cmd unit :=
  modify_tile (fun t => set_queue (Queue.pop (queue t)) t) ;;
  t <- get_tile ;;
  if Array.empty (paths t) then ret tt
  else
    let path := Array.back "" (paths t) in
    modify_tile (fun t => set_paths (Array.pop (paths t)) t) ;;
    pushTileQueue path.

(** The part both [renderTile(Model*, Matrix* )] and
    [renderPrefabSecondStage] share: camera, offscreen render, blit and
    read-back request. *)
Definition render_and_read_back (env : Env) : Cmd unit :=
  emit EvSetCameraMatrix ;;
  emit EvPipelineRender ;;
  let tex := createTexture2D env in
  modify_tile (set_texture tex) ;;
  emit (EvCreateTexture tex) ;;
  emit (EvBlit tex) ;;
  emit (EvReadTexture tex).

(** [void renderTile(Model* model, Matrix* in_mtx)]; [None] is
    [nullptr]. *)
Definition renderTile_Model (env : Env) (model : Resource)
    (in_mtx : option Matrix) : Cmd unit :=
  emit (EvRenderTile model) ;;
  if negb (has_render_scene env) then ret tt
  else if negb (has_renderer env) then ret tt
  else
    let mesh_entity := createEntity env in
    emit (EvCreateEntity mesh_entity) ;;
    emit (EvSetModelInstancePath mesh_entity (getPath model)) ;;
    match in_mtx with
    | Some mtx => emit (EvOverrideMatrix mtx)
    | None => ret tt
    end ;;
    render_and_read_back env ;;
    emit (EvDestroyEntity mesh_entity) ;;
    modify_tile (set_frame_countdown 2) ;;
    modify_tile (set_path_hash (Path_getHash (getPath model))) ;;
    emit (EvUnload model).

(** [void renderTile(PrefabResource* prefab)] *)
Definition renderTile_Prefab (env : Env) (prefab : Resource) : Cmd unit :=
  emit (EvRenderTile prefab) ;;
  if negb (has_render_scene env) then ret tt
  else if negb (has_renderer env) then ret tt
  else
    let mesh_entity := instantiatePrefab env prefab in
    emit (EvInstantiatePrefab prefab mesh_entity) ;;
    if negb (isValid mesh_entity) then ret tt
    else if negb (hasComponent env mesh_entity) then ret tt
    else
      match getModelInstanceModel env mesh_entity with
      | None => ret tt
      | Some model =>
        modify_tile (set_path_hash (Path_getHash (getPath prefab))) ;;
        emit (EvUnload prefab) ;;
        modify_tile (set_m_entity_in_fly mesh_entity) ;;
        emit (EvOnLoaded model)
      end.

(** [void renderPrefabSecondStage(old_state, new_state, Resource& resource)],
    the callback registered by [onLoaded]; the environment invokes it. *)
Definition renderPrefabSecondStage (env : Env) (model : Resource) : Cmd unit :=
  if negb (has_render_scene env) then ret tt
  else if negb (has_renderer env) then ret tt
  else if negb (isReady env model) then ret tt
  else
    render_and_read_back env ;;
    t <- get_tile ;;
    emit (EvDestroyEntity (m_entity_in_fly t)) ;;
    modify_tile (set_frame_countdown 2) ;;
    modify_tile (set_m_entity_in_fly INVALID_ENTITY).

(** [void update() override] *)
Definition update (env : Env) : Cmd unit :=
  t <- get_tile ;;
  if 0 <=? frame_countdown t then
    modify_tile (set_frame_countdown (frame_countdown t - 1)) ;;
    t <- get_tile ;;
    if frame_countdown t =? -1 then
      _ <- saveAsDDS env (tile_path (path_hash t)) ;;
      emit (EvDestroyTexture (texture t))
    else ret tt
  else if isValid (m_entity_in_fly t) then ret tt
  else
    match queue t with
    | [] => ret tt
    | resource :: _ =>
      if isFailure env resource then
        emit (EvLogFailedToLoadResource (getPath resource)) ;;
        popTileQueue
      else if negb (isReady env resource) then ret tt
      else
        popTileQueue ;;
        match getType resource with
        | Model_TYPE => renderTile_Model env resource None
        | PrefabResource_TYPE => renderTile_Prefab env resource
        | _ => emit EvAssertFailed
        end
    end.

(** [bool createTile(in_path, out_path, type) override] *)
Definition createTile (env : Env) (in_path out_path : string)
    (type : ResourceType) : Cmd bool :=
  match type with
  | Texture_TYPE =>
    c <- get_creator ;;
    put_creator (mkTextureTileCreator (shutdown c) (semaphore c + 1)
                                      (Array.push (tiles c) in_path)) ;;
    ret true
  | Material_TYPE => copyFile env tile_material_dds out_path
  | Shader_TYPE => copyFile env tile_shader_dds out_path
  | Model_TYPE | PrefabResource_TYPE =>
    t <- get_tile ;;
    if negb (Queue.full (queue t)) then
      pushTileQueue in_path ;;
      ret true
    else
      modify_tile (fun t => set_paths (Array.push (paths t) in_path) t) ;;
      ret true
  | Other_TYPE _ => ret false
  end.

(** The "Save preview" entry of the popup in [showPreview(Model& model)]:
    [model.getResourceManager().load(model); renderTile(&model, &mtx);]
    with the preview camera's matrix. *)
Definition savePreview (env : Env) (model : Resource) (mtx : Matrix) : Cmd unit :=
  emit (EvLoad model) ;;
  renderTile_Model env model (Some mtx).

(** How one pass through the body of the worker's [while] loop ends. *)
Inductive LoopStatus : Type :=
| Blocked      (* semaphore.wait() does not return: the count is 0 *)
| Exited       (* the loop condition or the [break] saw [shutdown] *)
| Continue.    (* the body ran to its end or to a [continue] *)

(** One iteration of the [while (!shutdown)] loop of
    [void createTextureTileTask()]. *)
Definition createTextureTileTask_iteration (env : Env) : Cmd LoopStatus :=
  c <- get_creator ;;
  if shutdown c then ret Exited
  else if semaphore c <=? 0 then ret Blocked
  else
    put_creator (mkTextureTileCreator (shutdown c) (semaphore c - 1) (tiles c)) ;;
    c <- get_creator ;;
    if shutdown c then ret Exited
    else
      let tile := Array.back "" (tiles c) in
      put_creator (mkTextureTileCreator (shutdown c) (semaphore c)
                                        (Array.pop (tiles c))) ;;
      let hash := crc32 tile in
      let out_path := tile_path hash in
      if hasExtension tile "dds" then
        emit (EvFileOpenRead tile) ;;
        if negb (file_open env tile) then
          copyFile env tile_texture_dds out_path ;;
          emit (EvLogFailedToLoadTile tile) ;;
          ret Continue
        else if negb (crn_decompress_ok env tile) then
          copyFile env tile_texture_dds out_path ;;
          ret Continue
        else
          emit (EvResize tile) ;;
          ok <- saveAsDDS env out_path ;;
          (if negb ok then emit (EvLogFailedToSave out_path) else ret tt) ;;
          ret Continue
      else
        emit (EvStbiLoad tile) ;;
        if negb (stbi_load_ok env tile) then
          emit (EvLogFailedToLoadTile tile) ;;
          copyFile env tile_texture_dds out_path ;;
          ret Continue
        else
          emit (EvResize tile) ;;
          ok <- saveAsDDS env out_path ;;
          (if negb ok then emit (EvLogFailedToSave out_path) else ret tt) ;;
          ret Continue.

(** The loop itself, for at most [fuel] passes. *)
Fixpoint createTextureTileTask (fuel : nat) (envs : nat -> Env) : Cmd LoopStatus :=
  match fuel with
  | O => ret Continue
  | S fuel' =>
    st <- createTextureTileTask_iteration (envs fuel') ;;
    match st with
    | Continue => createTextureTileTask fuel' envs
    | _ => ret st
    end
  end.

(** The destructor's part that stops the worker. *)
Definition shutdown_worker : Cmd unit :=
  c <- get_creator ;;
  put_creator (mkTextureTileCreator true (semaphore c) (tiles c)) ;;
  c <- get_creator ;;
  put_creator (mkTextureTileCreator (shutdown c) (semaphore c + 1) (tiles c)).

End ModelPlugin.

(** ** Running the plugin *)

(** The entry points the editor, the resource system and the worker
    thread drive: the asset browser's [createTile] and [update], the
    [onLoaded] callback, the preview popup's "Save preview", a pass of the
    worker and the destructor.  The worker and the main tick share only
    the creator's fields, which the source touches under its spin lock, so
    interleaving whole operations loses nothing. *)
Inductive Op : Type :=
| OpCreateTile (env : Env) (in_path out_path : string) (type : ResourceType)
| OpUpdate (env : Env)
| OpSecondStage (env : Env) (model : Resource)
| OpSavePreview (env : Env) (model : Resource) (mtx : Matrix)
| OpWorker (env : Env)
| OpShutdown.

Section Run.

Variable hasExtension : string -> string -> bool.
Variable crc32 : string -> Z.
Variable Path_getHash : string -> Z.

Definition step (o : Op) (w : World) : World :=
  match o with
  | OpCreateTile env i o t => exec (createTile hasExtension env i o t) w
  | OpUpdate env => exec (update hasExtension Path_getHash env) w
  | OpSecondStage env m => exec (renderPrefabSecondStage env m) w
  | OpSavePreview env m mtx => exec (savePreview Path_getHash env m mtx) w
  | OpWorker env => exec (createTextureTileTask_iteration hasExtension crc32 env) w
  | OpShutdown => exec shutdown_worker w
  end.

Definition run (ops : list Op) (w : World) : World :=
  fold_left (fun w o => step o w) ops w.

End Run.

(** A stub environment for the examples: every collaborator succeeds and
    every resource is ready. *)
Definition env_ready : Env :=
  mkEnv (fun _ => false) (fun _ => true) true true 7 (fun _ => 9)
        (fun _ => true) (fun e => Some (mkResource Model_TYPE "m.msh"))
        3 true (fun _ => true) (fun _ => true) (fun _ => true)
        (fun _ => true) (fun _ _ => true).

Definition ext_fab_dds (path ext : string) : bool :=
  let n := String.length path in
  String.eqb (substring (n - 3) 3 path) ext.

(** ** Observations on worlds and traces *)

Definition with_tile (t : TileData) (w : World) : World :=
  mkWorld t (m_texture_tile_creator w) (trace w).
Definition with_creator (c : TextureTileCreator) (w : World) : World :=
  mkWorld (m_tile w) c (trace w).
Definition with_events (es : list Event) (w : World) : World :=
  mkWorld (m_tile w) (m_texture_tile_creator w) (trace w ++ es).


(** [saveAsDDS] returns [false] for this path. *)
Definition encode_fails (env : Env) (path : string) : bool :=
  negb (crn_compress_ok env) || negb (file_create env path).

(** What a call of [saveAsDDS] adds to the trace. *)
Definition saveAsDDS_events (env : Env) (path : string) : list Event :=
  if encode_fails env path then [] else [EvFileWrite path].

Definition is_copy_to (to : string) (e : Event) : bool :=
  match e with EvCopyFile _ t => String.eqb t to | _ => false end.

Definition is_render_start (e : Event) : bool :=
  match e with EvRenderTile _ => true | _ => false end.

(** Read-backs issued ([bgfx::readTexture]) and read-backs finalized
    ([update] destroys the texture when the countdown runs out). *)
Definition is_read_back (e : Event) : bool :=
  match e with EvReadTexture _ => true | _ => false end.

Definition is_finalize (e : Event) : bool :=
  match e with EvDestroyTexture _ => true | _ => false end.

Definition read_backs (w : World) : nat :=
  List.length (filter is_read_back (trace w)).

Definition finalized (w : World) : nat :=
  List.length (filter is_finalize (trace w)).

(** Tile jobs in flight: a prefab entity waiting for its model, and every
    read-back issued and not yet finalized. *)
Definition jobs_in_flight (w : World) : Z :=
  (if isValid (m_entity_in_fly (m_tile w)) then 1 else 0)
  + (Z.of_nat (read_backs w) - Z.of_nat (finalized w)).

Definition render_starts (w : World) : nat :=
  List.length (filter is_render_start (trace w)).

(** The 3D requests the pipeline has taken out of the ring: handed to a
    [renderTile] overload, or dropped for a failed load. *)
Definition handled_3d (model_of : string -> Resource) (e : Event) : list Resource :=
  match e with
  | EvRenderTile r => [r]
  | EvLogFailedToLoadResource p => [model_of p]
  | _ => []
  end.

(** The image requests the worker has taken: each pass opens the tile it
    took, with [file.open] or with [stbi_load]. *)
Definition handled_image (e : Event) : list string :=
  match e with
  | EvFileOpenRead p | EvStbiLoad p => [p]
  | _ => []
  end.

(** ** Concrete instances used by the examples *)

(** Stand-ins for [crc32] and [Path::getHash]: the length of the string. *)
Definition stub_hash (s : string) : Z := Z.of_nat (String.length s).

(** As [env_ready], but [crn_compress] returns no block. *)
Definition env_encode_fails : Env :=
  mkEnv (fun _ => false) (fun _ => true) true true 7 (fun _ => 9)
        (fun _ => true) (fun e => Some (mkResource Model_TYPE "m.msh"))
        3 false (fun _ => true) (fun _ => true) (fun _ => true)
        (fun _ => true) (fun _ _ => true).

(** As [env_ready], but [crn_decompress_dds_to_images] fails. *)
Definition env_decompress_fails : Env :=
  mkEnv (fun _ => false) (fun _ => true) true true 7 (fun _ => 9)
        (fun _ => true) (fun e => Some (mkResource Model_TYPE "m.msh"))
        3 true (fun _ => true) (fun _ => true) (fun _ => false)
        (fun _ => true) (fun _ _ => true).

Definition run0 : list Op -> World -> World := run ext_fab_dds stub_hash stub_hash.

(** Ten model requests on a fresh plugin: eight fill the ring, then
    ["a.msh"] and after it ["b.msh"] overflow. *)
Definition ring_full_two_overflowed : World :=
  run0 (map (fun p => OpCreateTile env_ready p "" Model_TYPE)
            ["1.msh"; "2.msh"; "3.msh"; "4.msh"; "5.msh"; "6.msh"; "7.msh";
             "8.msh"; "a.msh"; "b.msh"])
       init_world.

(** One model request, rendered by the first [update]: the read-back has
    just been issued. *)
Definition read_back_issued : World :=
  run0 [OpCreateTile env_ready "1.msh" "" Model_TYPE; OpUpdate env_ready] init_world.

(** The same job two ticks later: the countdown has reached 0. *)
Definition countdown_at_zero : World :=
  run0 [OpUpdate env_ready; OpUpdate env_ready] read_back_issued.

(** Two image requests pending, ["old.tga"] submitted before ["new.dds"]. *)
Definition two_images_pending : World :=
  run0 [OpCreateTile env_ready "old.tga" "" Texture_TYPE;
        OpCreateTile env_ready "new.dds" "" Texture_TYPE] init_world.

(** A fair schedule of 41 ticks, and eleven requests for it: ten 3D
    requests (two of them overflow) and one image. *)
Definition sched41 : list (Env * Resource) :=
  repeat (env_ready, mkResource Model_TYPE "m.msh") 41.


(** One image request pending. *)
Definition one_image_pending : World :=
  run0 [OpCreateTile env_ready "a.tga" "" Texture_TYPE] init_world.

Definition model_m : Resource := mkResource Model_TYPE "m.msh".
Definition model_1 : Resource := mkResource Model_TYPE "1.msh".

(** ** Buffers behind raw pointers

    [flipY], [flipX] and [rasterizeTriangle2] work in place on a buffer
    through integer indices.  A buffer is a list of cell values; an access
    outside the buffer has no defined result, which the model reports as
    [None]. *)

Module Buffer.

Definition and_then {A B : Type} (o : option A) (f : A -> option B) : option B :=
  match o with
  | Some a => f a
  | None => None
  end.

(** [data[i]] as an rvalue. *)
Definition read (data : list Z) (i : Z) : option Z :=
  if i <? 0 then None else nth_error data (Z.to_nat i).

Fixpoint set_nth (data : list Z) (n : nat) (v : Z) : option (list Z) :=
  match data, n with
  | [], _ => None
  | _ :: rest, O => Some (v :: rest)
  | d :: rest, S k => option_map (cons d) (set_nth rest k v)
  end.

(** [data[i] = v]. *)
Definition write (data : list Z) (i : Z) (v : Z) : option (list Z) :=
  if i <? 0 then None else set_nth data (Z.to_nat i) v.

End Buffer.

(** ** EnvironmentProbePlugin: flipping a read-back cubemap face

    The loop counters and indices are [int]s; a computation that leaves
    the 32-bit range has no defined result either. *)

Module EnvironmentProbePlugin.

Import Buffer.

Definition INT_MIN : Z := - 2147483648.
Definition INT_MAX : Z := 2147483647.

(** The value of an [int] expression, when it is representable. *)
Definition int (z : Z) : option Z :=
  if (INT_MIN <=? z) && (z <=? INT_MAX) then Some z else None.

(** [for (int i = from; i < from + count; ++i) body]. *)
Fixpoint for_loop {S : Type} (count : nat) (i : Z)
         (body : Z -> S -> option S) (s : S) : option S :=
  match count with
  | O => Some s
  | Datatypes.S k => and_then (body i s) (for_loop k (i + 1) body)
  end.

(** [for (int i = 0; i < bound; ++i) body]. *)
Definition for_up_to {S : Type} (bound : Z) (body : Z -> S -> option S) (s : S)
  : option S :=
  for_loop (Z.to_nat bound) 0 body s.

(** [u32 t = data[i]; data[i] = data[j]; data[j] = t;] *)
Definition swap (data : list Z) (i j : Z) : option (list Z) :=
  and_then (read data i) (fun t =>
  and_then (read data j) (fun v =>
  and_then (write data i v) (fun data1 =>
  write data1 j t))).

(** [x + y * texture_size]. *)
Definition at_xy (texture_size x y : Z) : option Z :=
  and_then (int (y * texture_size)) (fun row => int (x + row)).

(** [x + (texture_size - y - 1) * texture_size]. *)
Definition at_x_mirror_y (texture_size x y : Z) : option Z :=
  and_then (int (texture_size - y)) (fun a =>
  and_then (int (a - 1)) (fun b => at_xy texture_size x b)).

Definition flipY (data : list Z) (texture_size : Z) : option (list Z) :=
  and_then (int (Z.quot texture_size 2)) (fun half =>
  for_up_to half (fun y data =>
    for_up_to texture_size (fun x data =>
      and_then (at_xy texture_size x y) (fun i =>
      and_then (at_x_mirror_y texture_size x y) (fun j =>
      swap data i j))) data) data).

(** [tmp[x]] for [tmp = &data[y * texture_size]]. *)
Definition in_row (texture_size y x : Z) : option Z :=
  and_then (int (y * texture_size)) (fun row => int (row + x)).

Definition flipX (data : list Z) (texture_size : Z) : option (list Z) :=
  for_up_to texture_size (fun y data =>
    and_then (int (Z.quot texture_size 2)) (fun half =>
    for_up_to half (fun x data =>
      and_then (in_row texture_size y x) (fun i =>
      and_then (int (texture_size - x)) (fun a =>
      and_then (int (a - 1)) (fun b =>
      and_then (in_row texture_size y b) (fun j =>
      swap data i j))))) data)) data.

(** The pixel in column [x] of row [y] of a face [texture_size] wide. *)
Definition pixel (data : list Z) (texture_size x y : Z) : Z :=
  nth (Z.to_nat (x + y * texture_size)) data 0.

(** The buffer holds one [texture_size] by [texture_size] face whose
    indices are representable. *)
Definition face (data : list Z) (texture_size : Z) : Prop :=
  0 <= texture_size /\
  texture_size * texture_size <= INT_MAX /\
  Z.of_nat (List.length data) = texture_size * texture_size.

End EnvironmentProbePlugin.

(** ** FurPainter: marking the texels a triangle covers

    [rasterizeTriangle2] walks a grid of sample points in 24.8 fixed point
    over the triangle's bounding box and sets the cell of every sample the
    three edge functions accept.  [i64] arithmetic wraps around. *)

Module FurPainter.

Import Buffer.

Definition wrap64 (z : Z) : Z :=
  (z + 9223372036854775808) mod 18446744073709551616 - 9223372036854775808.

Record Point := mkPoint { x : Z; y : Z }.

Definition orient2D (a b c : Point) : Z :=
  wrap64 (wrap64 (wrap64 (x b - x a) * wrap64 (y c - y a))
          - wrap64 (wrap64 (y b - y a) * wrap64 (x c - x a))).

(** [Math::minimum(a, b, c)] and [Math::maximum(a, b, c)]. *)
Definition minimum (a b c : Z) : Z := Z.min (Z.min a b) c.
Definition maximum (a b c : Z) : Z := Z.max (Z.max a b) c.

Definition substep : Z := 256.
Definition submask : Z := wrap64 (substep - 1).
Definition stepshift : Z := 8.

(** [for (p = from; p <= to; p += substep) body].  The loop leaves after
    at most [to - from + 1] rounds; [fuel] is that bound plus the last
    test. *)
Fixpoint for_le {S : Type} (fuel : nat) (p to : Z)
         (body : Z -> S -> option S) (s : S) : option S :=
  match fuel with
  | O => None
  | Datatypes.S k =>
      if p <=? to
      then and_then (body p s) (for_le k (wrap64 (p + substep)) to body)
      else Some s
  end.

Definition rounds (from to : Z) : nat := Datatypes.S (Z.to_nat (to - from + 1)).

(** The body of [rasterizeTriangle2] from the three [Point]s on: [v0],
    [v1], [v2] are the values the function computes from the vertices'
    texture coordinates. *)
Definition rasterizeTriangle2 (width : Z) (mem : list Z) (v0 v1 v2 : Point)
  : option (list Z) :=
  let minX := minimum (x v0) (x v1) (x v2) in
  let minY := minimum (y v0) (y v1) (y v2) in
  let maxX := wrap64 (maximum (x v0) (x v1) (x v2) + substep) in
  let maxY := wrap64 (maximum (y v0) (y v1) (y v2) + substep) in
  let minX := wrap64 (Z.land (wrap64 (minX + submask)) (Z.lnot submask) - 1) in
  let minY := wrap64 (Z.land (wrap64 (minY + submask)) (Z.lnot submask) - 1) in
  for_le (rounds minY maxY) minY maxY (fun py mem =>
    for_le (rounds minX maxX) minX maxX (fun px mem =>
      let p := mkPoint px py in
      let w0 := orient2D v1 v2 p in
      let w1 := orient2D v2 v0 p in
      let w2 := orient2D v0 v1 p in
      if (0 <=? w0) && (0 <=? w1) && (0 <=? w2)
      then write mem (wrap64 (Z.shiftr px stepshift
                              + wrap64 (Z.shiftr py stepshift * width))) 1
      else Some mem) mem) mem.

(** Fixed-point coordinates small enough for the edge functions not to
    wrap. *)
Definition small (v : Point) : Prop :=
  - 536870912 <= x v <= 536870912 /\ - 536870912 <= y v <= 536870912.

(** The sample point can be this far out without an edge function
    wrapping around. *)
Definition near (p : Point) : Prop :=
  - 1073741824 <= x p <= 1073741824 /\ - 1073741824 <= y p <= 1073741824.

(** The vertex lies on a texture [width] by [height] texels large. *)
Definition on_texture (width height : Z) (v : Point) : Prop :=
  0 <= x v < substep * width /\ 0 <= y v < substep * height.

End FurPainter.

(** ** Further concrete instances *)

(** As [env_ready], but no resource has finished loading. *)
Definition env_loading : Env :=
  mkEnv (fun _ => false) (fun _ => false) true true 7 (fun _ => 9)
        (fun _ => true) (fun e => Some (mkResource Model_TYPE "m.msh"))
        3 true (fun _ => true) (fun _ => true) (fun _ => true)
        (fun _ => true) (fun _ _ => true).

(** As [env_ready], but every resource failed to load. *)
Definition env_load_fails : Env :=
  mkEnv (fun _ => true) (fun _ => true) true true 7 (fun _ => 9)
        (fun _ => true) (fun e => Some (mkResource Model_TYPE "m.msh"))
        3 true (fun _ => true) (fun _ => true) (fun _ => true)
        (fun _ => true) (fun _ _ => true).

(** One model request waiting in the ring. *)
Definition one_model_pending : World :=
  run0 [OpCreateTile env_ready "1.msh" "" Model_TYPE] init_world.

(** A prefab request after its first stage: the entity is in flight. *)
Definition prefab_in_flight : World :=
  run0 [OpCreateTile env_ready "p.fab" "" PrefabResource_TYPE; OpUpdate env_ready]
       init_world.

(** A prefab and a model are requested; the prefab goes through both
    stages and is finalized, then the model is rendered and its read-back
    is counting down. *)
Definition model_after_prefab : list Op :=
  [OpCreateTile env_ready "p.fab" "" PrefabResource_TYPE;
   OpCreateTile env_ready "1.msh" "" Model_TYPE;
   OpUpdate env_ready;
   OpSecondStage env_ready model_m;
   OpUpdate env_ready; OpUpdate env_ready; OpUpdate env_ready;
   OpUpdate env_ready].

(** The name of the preview camera's matrix. *)
Definition preview_matrix : Matrix := 1.

Definition two_models_one_image : list (Env * string * string * ResourceType) :=
  [(env_ready, "1.msh", "", Model_TYPE);
   (env_ready, "i.tga", "", Texture_TYPE);
   (env_ready, "2.msh", "", Model_TYPE)].

(** A face of two by two pixels, and a mask of two by two texels. *)
Definition face_2x2 : list Z := [11; 12; 21; 22].
Definition mask_2x2 : list Z := [0; 0; 0; 0].

(** The corners of the first texel, in 24.8 fixed point. *)
Definition corner_00 : FurPainter.Point := FurPainter.mkPoint 0 0.
Definition corner_10 : FurPainter.Point := FurPainter.mkPoint 256 0.
Definition corner_01 : FurPainter.Point := FurPainter.mkPoint 0 256.

(** The last sub-texel positions of a texture two texels wide and high. *)
Definition far_x : FurPainter.Point := FurPainter.mkPoint 511 0.
Definition far_y : FurPainter.Point := FurPainter.mkPoint 0 511.

(** ** Specification vocabulary *)

Section Verification.

Variable hasExtension : string -> string -> bool.   (* PathUtils::hasExtension *)
Variable crc32 : string -> Z.                       (* crc32(const char* ) *)
Variable Path_getHash : string -> Z.                (* Path::getHash() *)

(** The event with which a pass of the worker opens the tile it took. *)
Definition opens (tile : string) : Event :=
  if hasExtension tile "dds" then EvFileOpenRead tile else EvStbiLoad tile.

(** The worker is awake with [tile] at the back of its pending array. *)
Definition worker_has (w : World) (older : list string) (tile : string) : Prop :=
  shutdown (m_texture_tile_creator w) = false /\
  0 < semaphore (m_texture_tile_creator w) /\
  tiles (m_texture_tile_creator w) = older ++ [tile].

(** The overload [update] picks for the resource it popped. *)
Definition dispatch (env : Env) (r : Resource) : Cmd unit :=
  match getType r with
  | Model_TYPE => renderTile_Model Path_getHash env r None
  | PrefabResource_TYPE => renderTile_Prefab Path_getHash env r
  | _ => emit EvAssertFailed
  end.

(** Requests taken out of the ring so far, and image requests the worker
    has taken so far. *)
Definition handled_requests_3d (w : World) : list Resource :=
  flat_map (handled_3d (load hasExtension)) (trace w).
Definition handled_requests_image (w : World) : list string :=
  flat_map handled_image (trace w).

(** Requests waiting in the ring or in the overflow array, as the
    resources they are (or will be) loaded as. *)
Definition pending_3d (w : World) : list Resource :=
  queue (m_tile w) ++ map (load hasExtension) (paths (m_tile w)).

(** What the tile state satisfies as long as the render step is entered
    through [update] and the callback only, as in the fair runs below;
    "Save preview" breaks the second part. *)
Definition tile_inv (t : TileData) : Prop :=
  (List.length (queue t) <= Queue.capacity)%nat /\
  (isValid (m_entity_in_fly t) = true -> frame_countdown t < 0) /\
  (paths t <> [] -> List.length (queue t) = Queue.capacity) /\
  Forall (fun r => r = load hasExtension (getPath r)) (queue t) /\
  -1 <= frame_countdown t <= 2.

(** What the ring satisfies whichever entry points have run, the
    unguarded ones included. *)
Definition ring_inv (t : TileData) : Prop :=
  (List.length (queue t) <= Queue.capacity)%nat /\
  (paths t <> [] -> List.length (queue t) = Queue.capacity) /\
  Forall (fun r => r = load hasExtension (getPath r)) (queue t) /\
  -1 <= frame_countdown t <= 2.

(** What a [createTile] call asks of the pipeline and of the worker. *)
Definition request_3d (in_path : string) (type : ResourceType) : list Resource :=
  match type with
  | Model_TYPE | PrefabResource_TYPE => [load hasExtension in_path]
  | _ => []
  end.

Definition request_image (in_path : string) (type : ResourceType) : list string :=
  match type with
  | Texture_TYPE => [in_path]
  | _ => []
  end.

(** The semaphore counts the pending image requests (no shutdown yet). *)
Definition worker_inv (c : TextureTileCreator) : Prop :=
  shutdown c = false /\ semaphore c = Z.of_nat (List.length (tiles c)).

(** A submitted request: the environment of the call and the arguments of
    [createTile]. *)
Definition Request : Type := (Env * string * string * ResourceType)%type.

Definition submit (rq : Request) : Op :=
  let '(env, in_path, out_path, type) := rq in
  OpCreateTile env in_path out_path type.

Definition requests_3d (reqs : list Request) : list Resource :=
  flat_map (fun rq : Request => request_3d (snd (fst (fst rq))) (snd rq)) reqs.

Definition requests_image (reqs : list Request) : list string :=
  flat_map (fun rq : Request => request_image (snd (fst (fst rq))) (snd rq)) reqs.

(** One tick of a fair environment: scene and renderer exist, every
    queued resource has finished loading (ready or failed), and the model
    of a prefab in flight is ready, so its [onLoaded] callback fires. *)
Definition fair (em : Env * Resource) : Prop :=
  has_render_scene (fst em) = true /\
  has_renderer (fst em) = true /\
  isReady (fst em) (snd em) = true /\
  forall r, isFailure (fst em) r = true \/ isReady (fst em) r = true.

(** The callback (if an entity is in flight), one [update], one pass of
    the worker. *)
Definition fair_round (em : Env * Resource) (w : World) : World :=
  let w1 := if isValid (m_entity_in_fly (m_tile w))
            then step hasExtension crc32 Path_getHash (OpSecondStage (fst em) (snd em)) w
            else w in
  step hasExtension crc32 Path_getHash (OpWorker (fst em))
       (step hasExtension crc32 Path_getHash (OpUpdate (fst em)) w1).

Definition fair_run (sched : list (Env * Resource)) (w : World) : World :=
  fold_left (fun w em => fair_round em w) sched w.

(** Ticks the pipeline still needs: 4 per waiting request (one to render,
    three to drain and finalize), plus what the job in flight needs. *)
Definition work_3d (t : TileData) : nat :=
  (4 * (List.length (queue t) + List.length (paths t))
   + Z.to_nat (frame_countdown t + 1)
   + (if isValid (m_entity_in_fly t) then 3 else 0))%nat.

Definition work_left (w : World) : nat :=
  (work_3d (m_tile w) + List.length (tiles (m_texture_tile_creator w)))%nat.

(** What is conserved: every 3D request is either handled or pending, and
    every image request is either taken by the worker or pending. *)
Definition accounted (w : World) (r3 : list Resource) (ri : list string) : Prop :=
  Permutation (handled_requests_3d w ++ pending_3d w) r3 /\
  Permutation (handled_requests_image w ++ tiles (m_texture_tile_creator w)) ri.

(** The worker could read and decode this tile. *)
Definition decodes (env : Env) (tile : string) : bool :=
  if hasExtension tile "dds"
  then file_open env tile && crn_decompress_ok env tile
  else stbi_load_ok env tile.

















(** Assertions that fired: [ASSERT(!m_tile.queue.full())] in
    [pushTileQueue] and [ASSERT(false)] in [update]. *)
Definition is_assert (e : Event) : bool :=
  match e with EvAssertFailed => true | _ => false end.

Definition asserts (w : World) : list Event := filter is_assert (trace w).

(** The semaphore counts the pending image requests until the destructor
    raises [shutdown]. *)
Definition creator_inv (c : TextureTileCreator) : Prop :=
  shutdown c = false -> semaphore c = Z.of_nat (List.length (tiles c)).

(** The front of the ring has not finished loading. *)
Definition still_loading (r : Resource) (env : Env) : Prop :=
  isFailure env r = false /\ isReady env r = false.

(** The events a call added to the trace. *)
Definition events_since (w w' : World) : list Event :=
  skipn (List.length (trace w)) (trace w').

(** The files an event brought into being under [env]: the tile
    [saveAsDDS] wrote, or the placeholder where [copyFile] returned
    [true]. *)
Definition written (env : Env) (e : Event) : list string :=
  match e with
  | EvFileWrite p => [p]
  | EvCopyFile from p => if copyFile_ok env from p then [p] else []
  | _ => []
  end.

(** The overflowed request the next consumed slot lets in, if any. *)
Definition refill (overflow : list string) : list string :=
  match rev overflow with
  | [] => []
  | newest :: _ => [newest]
  end.

(** ** Proof automation *)

(** Runs the operations: call-by-value normalisation of the operations,
    the monad's combinators, the record updates and the projections, so
    that every intermediate world is built once.  [explode] first makes the
    world an explicit record, so that every projection reduces. *)
Ltac run_cmd :=
  cbv beta iota zeta delta
    [exec result createTile update popTileQueue pushTileQueue
     renderTile_Model renderTile_Prefab renderPrefabSecondStage
     render_and_read_back createTextureTileTask_iteration shutdown_worker
     savePreview saveAsDDS copyFile modify_tile bind ret get_tile put_tile
     get_creator put_creator emit fst snd
     set_m_entity_in_fly set_frame_countdown set_path_hash set_texture
     set_queue set_paths
     m_tile m_texture_tile_creator trace m_entity_in_fly frame_countdown
     path_hash texture queue paths shutdown semaphore tiles].

Ltac explode w :=
  destruct w as [[? ? ? ? ? ?] [? ? ?] ?];
  cbn [m_tile m_texture_tile_creator trace m_entity_in_fly frame_countdown
       path_hash texture queue paths shutdown semaphore tiles] in *.

(** One case split on the condition the run is stuck on. *)
Ltac case_step :=
  match goal with
  | H : ?b = _ |- context [if negb ?b then _ else _] => rewrite H
  | H : ?b = _ |- context [if ?b then _ else _] => rewrite H
  | |- context [if negb ?b then _ else _] => destruct b eqn:?
  | |- context [if ?b then _ else _] => destruct b eqn:?
  end; cbn [negb]; run_cmd.

Ltac split_cases := run_cmd; repeat case_step.

Ltac unfold_with := unfold with_tile, with_creator, with_events.

Ltac worker_case H w :=
  let Hs := fresh "Hs" in
  let Hsem := fresh "Hsem" in
  let Ht := fresh "Ht" in
  let E := fresh "E" in
  destruct H as (Hs & Hsem & Ht);
  match type of Hsem with
  | 0 < ?x => assert (E : (x <=? 0) = false) by (apply Z.leb_gt; lia)
  end;
  explode w;
  subst; unfold opens; run_cmd; rewrite E; run_cmd;
  unfold Array.back, Array.pop; rewrite last_last, removelast_last.

(** ** The request router *)

Lemma createTile_texture :
  forall env in_path out_path w,
    createTile hasExtension env in_path out_path Texture_TYPE w =
    (true, with_creator
             (mkTextureTileCreator (shutdown (m_texture_tile_creator w))
                                   (semaphore (m_texture_tile_creator w) + 1)
                                   (tiles (m_texture_tile_creator w) ++ [in_path])) w).
Proof. intros. reflexivity. Qed.

Lemma createTile_3d :
  forall env in_path out_path type w,
    type = Model_TYPE \/ type = PrefabResource_TYPE ->
    createTile hasExtension env in_path out_path type w =
    (true, if Queue.full (queue (m_tile w))
           then with_tile (set_paths (paths (m_tile w) ++ [in_path]) (m_tile w)) w
           else with_tile (set_queue (queue (m_tile w) ++ [load hasExtension in_path])
                                     (m_tile w))
                          (with_events [EvLoad (load hasExtension in_path)] w)).
Proof.
  intros env in_path out_path type w [H|H]; subst type; unfold_with;
    explode w; split_cases; reflexivity.
Qed.

(** C8: [createTile] returns [true] for a Texture request (appended to the
    worker's pending array, semaphore signalled) and for a Model or Prefab
    request (pushed into the ring, or appended to the overflow array when
    the ring is full, without a load and without any event), and returns
    [false] leaving the world exactly as it was for a type it does not
    recognize. *)
Theorem createTile_accepts_or_rejects_untouched :
  forall (env : Env) (in_path out_path : string) (type : ResourceType) (w : World),
    let t := m_tile w in
    let c := m_texture_tile_creator w in
    match type with
    | Texture_TYPE =>
      createTile hasExtension env in_path out_path type w =
      (true, with_creator (mkTextureTileCreator (shutdown c) (semaphore c + 1)
                                                (tiles c ++ [in_path])) w)
    | Model_TYPE | PrefabResource_TYPE =>
      createTile hasExtension env in_path out_path type w =
      (true, if Queue.full (queue t)
             then with_tile (set_paths (paths t ++ [in_path]) t) w
             else with_tile (set_queue (queue t ++ [load hasExtension in_path]) t)
                            (with_events [EvLoad (load hasExtension in_path)] w))
    | Other_TYPE _ =>
      createTile hasExtension env in_path out_path type w = (false, w)
    | Material_TYPE | Shader_TYPE =>
      result (createTile hasExtension env in_path out_path type) w =
      copyFile_ok env (match type with Material_TYPE => tile_material_dds
                                     | _ => tile_shader_dds end) out_path
    end.
Proof.
  intros env in_path out_path type w t c. subst t c.
  destruct type; unfold_with; explode w; split_cases; reflexivity.
Qed.

(** ** The background worker *)

Lemma worker_pass_takes_back :
  forall env w older tile,
    worker_has w older tile ->
    result (createTextureTileTask_iteration hasExtension crc32 env) w = Continue /\
    m_tile (exec (createTextureTileTask_iteration hasExtension crc32 env) w) = m_tile w /\
    m_texture_tile_creator (exec (createTextureTileTask_iteration hasExtension crc32 env) w) =
      mkTextureTileCreator false (semaphore (m_texture_tile_creator w) - 1) older /\
    exists rest, trace (exec (createTextureTileTask_iteration hasExtension crc32 env) w) = trace w ++ opens tile :: rest.
Proof.
  intros env w older tile (Hs & Hsem & Ht).
  assert (E : (semaphore (m_texture_tile_creator w) <=? 0) = false)
    by (apply Z.leb_gt; lia).
  explode w. subst. unfold opens. run_cmd. rewrite E. run_cmd.
  unfold Array.back, Array.pop. rewrite last_last, removelast_last.
  split_cases; repeat split; eexists; rewrite <- ?app_assoc; reflexivity.
Qed.

(** C10: the worker takes pending image requests from the back of the
    shared array: of two requests submitted one after the other, the pass
    that follows processes the second and leaves the first (and everything
    older) pending. *)
Theorem worker_takes_most_recent_request :
  forall (env env1 env2 : Env) (p1 o1 p2 o2 : string) (w : World),
    shutdown (m_texture_tile_creator w) = false ->
    0 <= semaphore (m_texture_tile_creator w) ->
    let w2 := exec (createTile hasExtension env2 p2 o2 Texture_TYPE)
                   (exec (createTile hasExtension env1 p1 o1 Texture_TYPE) w) in
    let w3 := exec (createTextureTileTask_iteration hasExtension crc32 env) w2 in
    result (createTextureTileTask_iteration hasExtension crc32 env) w2 = Continue /\
    tiles (m_texture_tile_creator w3) = tiles (m_texture_tile_creator w) ++ [p1] /\
    exists rest, trace w3 = trace w ++ opens p2 :: rest.
Proof.
  intros env env1 env2 p1 o1 p2 o2 w Hs Hsem w2 w3.
  assert (Hw2 : worker_has w2 (tiles (m_texture_tile_creator w) ++ [p1]) p2).
  { subst w2. unfold worker_has, Array.push. simpl. repeat split; auto; lia. }
  destruct (worker_pass_takes_back env w2 _ _ Hw2) as (Hr & _ & Hc & rest & Htr).
  subst w3. rewrite Hr, Hc. simpl. repeat split.
  exists rest. rewrite Htr. reflexivity.
Qed.

(** ** The staged render pipeline *)

(** *** Draining and finalize *)

Lemma update_draining :
  forall env w,
    0 < frame_countdown (m_tile w) ->
    update hasExtension Path_getHash env w =
    (tt, with_tile (set_frame_countdown (frame_countdown (m_tile w) - 1) (m_tile w)) w).
Proof.
  intros env w H.
  assert (E : (0 <=? frame_countdown (m_tile w)) = true) by (apply Z.leb_le; lia).
  assert (E' : (frame_countdown (m_tile w) - 1 =? -1) = false)
    by (apply Z.eqb_neq; lia).
  unfold_with. explode w. run_cmd. rewrite E. run_cmd. rewrite E'. reflexivity.
Qed.

Lemma update_finalize :
  forall env w,
    frame_countdown (m_tile w) = 0 ->
    update hasExtension Path_getHash env w =
    (tt, with_tile (set_frame_countdown (-1) (m_tile w))
           (with_events (saveAsDDS_events env (tile_path (path_hash (m_tile w)))
                         ++ [EvDestroyTexture (texture (m_tile w))]) w)).
Proof.
  intros env w H.
  unfold saveAsDDS_events, encode_fails. unfold_with. explode w. subst.
  run_cmd. change (0 <=? 0) with true. run_cmd.
  change (0 - 1 =? -1) with true. run_cmd.
  destruct (crn_compress_ok env); cbn [negb orb]; run_cmd;
    [destruct (file_create env _); cbn [negb]; run_cmd|];
    simpl; rewrite <- ?app_assoc; reflexivity.
Qed.

(** C2 (as the code has it): once [frame_countdown] is 2, the next two
    [update] calls only count down (to 1, then to 0) and touch nothing
    else; the third call, on which the countdown goes from 0 to -1, is the
    one that encodes and writes the tile and destroys the read-back
    texture. *)
Theorem finalize_runs_on_third_update :
  forall (e1 e2 e3 : Env) (w : World),
    frame_countdown (m_tile w) = 2 ->
    let w1 := exec (update hasExtension Path_getHash e1) w in
    let w2 := exec (update hasExtension Path_getHash e2) w1 in
    let w3 := exec (update hasExtension Path_getHash e3) w2 in
    w1 = with_tile (set_frame_countdown 1 (m_tile w)) w /\
    w2 = with_tile (set_frame_countdown 0 (m_tile w)) w /\
    w3 = with_tile (set_frame_countdown (-1) (m_tile w))
           (with_events (saveAsDDS_events e3 (tile_path (path_hash (m_tile w)))
                         ++ [EvDestroyTexture (texture (m_tile w))]) w).
Proof.
  intros e1 e2 e3 w H w1 w2 w3.
  assert (H1 : w1 = with_tile (set_frame_countdown 1 (m_tile w)) w).
  { subst w1. unfold exec. rewrite update_draining by lia. rewrite H. reflexivity. }
  assert (H2 : w2 = with_tile (set_frame_countdown 0 (m_tile w)) w).
  { subst w2. rewrite H1. unfold exec. rewrite update_draining by (simpl; lia).
    reflexivity. }
  repeat split; auto.
  subst w3. rewrite H2. unfold exec. rewrite update_finalize by reflexivity.
  reflexivity.
Qed.

(** *** Consuming a slot of the ring *)

Lemma popTileQueue_no_overflow :
  forall w,
    paths (m_tile w) = [] ->
    popTileQueue hasExtension w =
    (tt, with_tile (set_queue (tl (queue (m_tile w))) (m_tile w)) w).
Proof.
  intros w H. unfold_with. explode w. subst. run_cmd. reflexivity.
Qed.

Lemma popTileQueue_overflow :
  forall w older newest,
    paths (m_tile w) = older ++ [newest] ->
    (List.length (queue (m_tile w)) <= Queue.capacity)%nat ->
    popTileQueue hasExtension w =
    (tt, with_tile (set_paths older
                     (set_queue (tl (queue (m_tile w)) ++ [load hasExtension newest])
                                (m_tile w)))
           (with_events [EvLoad (load hasExtension newest)] w)).
Proof.
  intros w older newest H Hlen.
  assert (He : Array.empty (paths (m_tile w)) = false).
  { rewrite H. destruct older; reflexivity. }
  assert (Hf : Queue.full (Queue.pop (queue (m_tile w))) = false).
  { unfold Queue.full, Queue.pop, Queue.capacity in *.
    apply Nat.eqb_neq. destruct (queue (m_tile w)); simpl in *; lia. }
  unfold_with. explode w. run_cmd. rewrite He. run_cmd. rewrite Hf. run_cmd.
  subst. unfold Array.back, Array.pop, Queue.pop, Queue.push.
  rewrite last_last, removelast_last. reflexivity.
Qed.

(** C1 (as the code has it): each consumed slot takes the request at the
    BACK of the overflow array, the most recently overflowed one, and
    pushes it behind the requests the ring holds; so consuming as many
    slots as there are overflowed requests [taken] lets them in newest
    first. *)
Theorem popTileQueue_takes_overflow_newest_first :
  forall (taken keep : list string) (w : World),
    paths (m_tile w) = keep ++ taken ->
    (1 <= List.length (queue (m_tile w)) <= Queue.capacity)%nat ->
    let w' := Nat.iter (List.length taken) (exec (popTileQueue hasExtension)) w in
    queue (m_tile w') =
      skipn (List.length taken)
            (queue (m_tile w) ++ map (load hasExtension) (rev taken)) /\
    paths (m_tile w') = keep /\
    trace w' = trace w ++ map (fun p => EvLoad (load hasExtension p)) (rev taken).
Proof.
  induction taken as [|p taken IH] using rev_ind; intros keep w Hp Hlen.
  - simpl. rewrite !app_nil_r in *. auto.
  - rewrite length_app, Nat.add_comm. simpl Nat.add. rewrite Nat.iter_succ_r.
    rewrite app_assoc in Hp.
    assert (Hstep := popTileQueue_overflow w (keep ++ taken) p Hp (proj2 Hlen)).
    assert (Hq : exists r q, queue (m_tile w) = r :: q).
    { destruct (queue (m_tile w)) as [|r q]; simpl in *; [lia|eauto]. }
    destruct Hq as (r & q & Hq).
    set (w1 := exec (popTileQueue hasExtension) w) in *.
    assert (Hw1 : w1 = with_tile (set_paths (keep ++ taken)
                     (set_queue (q ++ [load hasExtension p]) (m_tile w)))
                     (with_events [EvLoad (load hasExtension p)] w)).
    { subst w1. unfold exec. rewrite Hstep, Hq. reflexivity. }
    destruct (IH keep w1) as (IHq & IHp & IHt).
    + rewrite Hw1. reflexivity.
    + rewrite Hw1. simpl. rewrite length_app. rewrite Hq in Hlen. simpl in *. lia.
    + cbv zeta. rewrite IHq, IHp, IHt, Hw1. simpl.
      rewrite rev_app_distr, Hq. simpl. rewrite <- !app_assoc. auto.
Qed.

(** *** Rendering *)

Lemma renderTile_Model_renders :
  forall env model w,
    has_render_scene env = true ->
    has_renderer env = true ->
    renderTile_Model Path_getHash env model None w =
    (tt, with_tile (set_path_hash (Path_getHash (getPath model))
                     (set_frame_countdown 2
                       (set_texture (createTexture2D env) (m_tile w))))
           (with_events
              [EvRenderTile model;
               EvCreateEntity (createEntity env);
               EvSetModelInstancePath (createEntity env) (getPath model);
               EvSetCameraMatrix; EvPipelineRender;
               EvCreateTexture (createTexture2D env);
               EvBlit (createTexture2D env);
               EvReadTexture (createTexture2D env);
               EvDestroyEntity (createEntity env);
               EvUnload model] w)).
Proof.
  intros env model w Hs Hr. unfold_with. explode w. run_cmd.
  rewrite Hs, Hr. cbn [negb]. run_cmd. rewrite <- !app_assoc. reflexivity.
Qed.



Lemma renderPrefabSecondStage_renders :
  forall env model w,
    has_render_scene env = true ->
    has_renderer env = true ->
    isReady env model = true ->
    renderPrefabSecondStage env model w =
    (tt, with_tile (set_m_entity_in_fly INVALID_ENTITY
                     (set_frame_countdown 2
                       (set_texture (createTexture2D env) (m_tile w))))
           (with_events
              [EvSetCameraMatrix; EvPipelineRender;
               EvCreateTexture (createTexture2D env);
               EvBlit (createTexture2D env);
               EvReadTexture (createTexture2D env);
               EvDestroyEntity (m_entity_in_fly (m_tile w))] w)).
Proof.
  intros env model w Hs Hr Hm. unfold_with. explode w. run_cmd.
  rewrite Hs, Hr, Hm. cbn [negb]. run_cmd. rewrite <- !app_assoc. reflexivity.
Qed.

(** ** Invariants of the tile state *)

Lemma update_waiting_for_model :
  forall env w,
    frame_countdown (m_tile w) < 0 ->
    isValid (m_entity_in_fly (m_tile w)) = true ->
    update hasExtension Path_getHash env w = (tt, w).
Proof.
  intros env w Hc Hv.
  assert (E : (0 <=? frame_countdown (m_tile w)) = false) by (apply Z.leb_gt; lia).
  explode w. run_cmd. rewrite E, Hv. reflexivity.
Qed.

Lemma update_ring_empty :
  forall env w,
    frame_countdown (m_tile w) < 0 ->
    isValid (m_entity_in_fly (m_tile w)) = false ->
    queue (m_tile w) = [] ->
    update hasExtension Path_getHash env w = (tt, w).
Proof.
  intros env w Hc Hv Hq.
  assert (E : (0 <=? frame_countdown (m_tile w)) = false) by (apply Z.leb_gt; lia).
  explode w. subst. run_cmd. rewrite E, Hv. reflexivity.
Qed.

Lemma update_drops_failed :
  forall env w r q,
    frame_countdown (m_tile w) < 0 ->
    isValid (m_entity_in_fly (m_tile w)) = false ->
    queue (m_tile w) = r :: q ->
    isFailure env r = true ->
    update hasExtension Path_getHash env w =
    popTileQueue hasExtension
      (with_events [EvLogFailedToLoadResource (getPath r)] w).
Proof.
  intros env w r q Hc Hv Hq Hf. unfold update, bind, get_tile.
  destruct (0 <=? frame_countdown (m_tile w)) eqn:E; [lia|].
  rewrite Hv, Hq, Hf. reflexivity.
Qed.

Lemma update_not_ready :
  forall env w r q,
    frame_countdown (m_tile w) < 0 ->
    isValid (m_entity_in_fly (m_tile w)) = false ->
    queue (m_tile w) = r :: q ->
    isFailure env r = false ->
    isReady env r = false ->
    update hasExtension Path_getHash env w = (tt, w).
Proof.
  intros env w r q Hc Hv Hq Hf Hr. unfold update, bind, get_tile.
  destruct (0 <=? frame_countdown (m_tile w)) eqn:E; [lia|].
  rewrite Hv, Hq, Hf, Hr. reflexivity.
Qed.

Lemma update_dispatches_ready :
  forall env w r q,
    frame_countdown (m_tile w) < 0 ->
    isValid (m_entity_in_fly (m_tile w)) = false ->
    queue (m_tile w) = r :: q ->
    isFailure env r = false ->
    isReady env r = true ->
    update hasExtension Path_getHash env w =
    dispatch env r (exec (popTileQueue hasExtension) w).
Proof.
  intros env w r q Hc Hv Hq Hf Hr. unfold update, bind, get_tile, exec.
  destruct (0 <=? frame_countdown (m_tile w)) eqn:E; [lia|].
  rewrite Hv, Hq, Hf, Hr. simpl.
  destruct (popTileQueue hasExtension w) as [[] w']. reflexivity.
Qed.

Ltac trace_simpl :=
  unfold handled_requests_3d, handled_requests_image, render_starts; simpl;
  rewrite ?filter_app, ?flat_map_app, ?length_app; simpl;
  rewrite ?app_nil_r, ?Nat.add_0_r.

Lemma dispatch_effect :
  forall env r w,
    getType r = Model_TYPE \/ getType r = PrefabResource_TYPE ->
    let w' := exec (dispatch env r) w in
    queue (m_tile w') = queue (m_tile w) /\
    paths (m_tile w') = paths (m_tile w) /\
    m_texture_tile_creator w' = m_texture_tile_creator w /\
    handled_requests_3d w' = handled_requests_3d w ++ [r] /\
    handled_requests_image w' = handled_requests_image w /\
    render_starts w' = S (render_starts w) /\
    ((frame_countdown (m_tile w') = frame_countdown (m_tile w) /\
      m_entity_in_fly (m_tile w') = m_entity_in_fly (m_tile w)) \/
     (frame_countdown (m_tile w') = 2 /\
      m_entity_in_fly (m_tile w') = m_entity_in_fly (m_tile w)) \/
     (frame_countdown (m_tile w') = frame_countdown (m_tile w) /\
      isValid (m_entity_in_fly (m_tile w')) = true)).
Proof.
  intros env r w [Ht|Ht]; unfold dispatch; rewrite Ht; explode w.
  - split_cases; trace_simpl; repeat split; auto; lia.
  - run_cmd.
    destruct (getModelInstanceModel env (instantiatePrefab env r)) eqn:Hm;
      split_cases; trace_simpl; repeat split; auto; try lia.
Qed.

Lemma load_type :
  forall p, getType (load hasExtension p) = Model_TYPE \/
            getType (load hasExtension p) = PrefabResource_TYPE.
Proof. intro p. unfold load. destruct (hasExtension p "fab"); auto. Qed.

Lemma load_path : forall p, getPath (load hasExtension p) = p.
Proof. intro p. unfold load. destruct (hasExtension p "fab"); auto. Qed.

Lemma load_load : forall p, load hasExtension p = load hasExtension (getPath (load hasExtension p)).
Proof. intro p. rewrite load_path. reflexivity. Qed.

Lemma list_back_cases :
  forall (A : Type) (l : list A), l = [] \/ exists older newest, l = older ++ [newest].
Proof.
  intros A l. destruct l as [|x l] using rev_ind; [left|right]; eauto.
Qed.

Lemma init_tile_inv : tile_inv (m_tile init_world).
Proof.
  unfold tile_inv, Queue.capacity. simpl. repeat split; auto; try lia.
  all: try discriminate; try congruence.
Qed.

Lemma popTileQueue_effect :
  forall w r q,
    tile_inv (m_tile w) ->
    queue (m_tile w) = r :: q ->
    let w' := exec (popTileQueue hasExtension) w in
    tile_inv (m_tile w') /\
    frame_countdown (m_tile w') = frame_countdown (m_tile w) /\
    m_entity_in_fly (m_tile w') = m_entity_in_fly (m_tile w) /\
    m_texture_tile_creator w' = m_texture_tile_creator w /\
    handled_requests_3d w' = handled_requests_3d w /\
    handled_requests_image w' = handled_requests_image w /\
    render_starts w' = render_starts w /\
    Permutation (r :: pending_3d w') (pending_3d w) /\
    (S (List.length (queue (m_tile w')) + List.length (paths (m_tile w'))) =
     List.length (queue (m_tile w)) + List.length (paths (m_tile w)))%nat.
Proof.
  intros w r q (I1 & I2 & I3 & I4 & I5) Hq w'.
  destruct (list_back_cases _ (paths (m_tile w))) as [Hp|(older & newest & Hp)].
  - assert (Hw' : w' = with_tile (set_queue (tl (queue (m_tile w))) (m_tile w)) w).
    { subst w'. unfold exec. rewrite popTileQueue_no_overflow by assumption.
      reflexivity. }
    rewrite Hw'. unfold pending_3d, tile_inv. trace_simpl.
    rewrite Hq, Hp in *. simpl in *.
    repeat split; auto; try lia; try congruence.
    inversion I4; assumption.
  - assert (Hw' : w' = with_tile (set_paths older
                     (set_queue (tl (queue (m_tile w)) ++ [load hasExtension newest])
                                (m_tile w)))
                     (with_events [EvLoad (load hasExtension newest)] w)).
    { subst w'. unfold exec. rewrite (popTileQueue_overflow _ _ _ Hp) by assumption.
      reflexivity. }
    assert (Hfull : List.length (queue (m_tile w)) = Queue.capacity).
    { apply I3. rewrite Hp. destruct older; discriminate. }
    rewrite Hw'. unfold pending_3d, tile_inv. trace_simpl.
    rewrite Hq, Hp in *. simpl in *. rewrite ?length_app, ?map_app in *. simpl in *.
    repeat split; auto; try lia.
    + apply Forall_app. split; [inversion I4; assumption|].
      constructor; [apply load_load|constructor].
    + rewrite <- app_assoc.
      apply perm_skip, Permutation_app_head, Permutation_app_comm.
Qed.

Lemma tile_inv_unfold :
  forall t,
    tile_inv t ->
    isValid (m_entity_in_fly t) = false \/
    (isValid (m_entity_in_fly t) = true /\ frame_countdown t = -1).
Proof.
  intros t (_ & I2 & _ & _ & I5).
  destruct (isValid (m_entity_in_fly t)); [right|left]; auto.
  split; auto. specialize (I2 eq_refl). lia.
Qed.

Lemma update_effect :
  forall env w,
    tile_inv (m_tile w) ->
    let w' := exec (update hasExtension Path_getHash env) w in
    tile_inv (m_tile w') /\
    m_texture_tile_creator w' = m_texture_tile_creator w /\
    handled_requests_image w' = handled_requests_image w /\
    Permutation (handled_requests_3d w' ++ pending_3d w')
                (handled_requests_3d w ++ pending_3d w) /\
    (render_starts w' <= render_starts w + 1)%nat.
Proof.
  intros env w Hinv w'.
  pose proof Hinv as (I1 & I2 & I3 & I4 & I5).
  destruct (Z_lt_le_dec 0 (frame_countdown (m_tile w))) as [Hpos|Hle].
  { (* draining *)
    assert (Hw' : w' = with_tile (set_frame_countdown (frame_countdown (m_tile w) - 1)
                                   (m_tile w)) w).
    { subst w'. unfold exec. rewrite update_draining by assumption. reflexivity. }
    rewrite Hw'. unfold tile_inv, pending_3d. trace_simpl.
    repeat split; auto; try lia. intro Hv. specialize (I2 Hv). lia. }
  destruct (Z.eq_dec (frame_countdown (m_tile w)) 0) as [Hzero|Hnz].
  { (* finalize *)
    assert (Hw' : w' = with_tile (set_frame_countdown (-1) (m_tile w))
           (with_events (saveAsDDS_events env (tile_path (path_hash (m_tile w)))
                         ++ [EvDestroyTexture (texture (m_tile w))]) w)).
    { subst w'. unfold exec. rewrite update_finalize by assumption. reflexivity. }
    rewrite Hw'. unfold tile_inv, pending_3d, saveAsDDS_events.
    destruct (encode_fails env _); trace_simpl; repeat split; auto; lia. }
  assert (Hneg : frame_countdown (m_tile w) < 0) by lia.
  destruct (isValid (m_entity_in_fly (m_tile w))) eqn:Hv.
  { assert (Hw' : w' = w).
    { subst w'. unfold exec. rewrite update_waiting_for_model by assumption.
      reflexivity. }
    rewrite Hw'. split; [exact Hinv|]. split; [reflexivity|]. split; [reflexivity|].
      split; [apply Permutation_refl|lia]. }
  destruct (queue (m_tile w)) as [|r q] eqn:Hq.
  { assert (Hw' : w' = w).
    { subst w'. unfold exec. rewrite update_ring_empty by assumption.
      reflexivity. }
    rewrite Hw'. split; [exact Hinv|]. split; [reflexivity|]. split; [reflexivity|].
      split; [apply Permutation_refl|lia]. }
  assert (Hr : r = load hasExtension (getPath r)).
  { inversion I4; assumption. }
  destruct (isFailure env r) eqn:Hfail.
  { (* dropped *)
    set (w0 := with_events [EvLogFailedToLoadResource (getPath r)] w).
    assert (Hw' : w' = exec (popTileQueue hasExtension) w0).
    { subst w'. unfold exec.
      rewrite (update_drops_failed env w r q) by assumption. reflexivity. }
    destruct (popTileQueue_effect w0 r q Hinv Hq)
      as (P1 & P2 & P3 & P4 & P5 & P6 & P7 & P8 & P9).
    rewrite <- Hw' in *.
    repeat split; try apply P1; auto.
    - rewrite P6. unfold handled_requests_image, w0. simpl.
      rewrite flat_map_app. simpl. apply app_nil_r.
    - rewrite P5. unfold handled_requests_3d, w0. simpl.
      rewrite flat_map_app. simpl. rewrite <- Hr, <- app_assoc. simpl.
      apply Permutation_app_head. exact P8.
    - rewrite P7. unfold render_starts, w0. simpl.
      rewrite filter_app, length_app. simpl. lia. }
  destruct (isReady env r) eqn:Hready.
  2:{ assert (Hw' : w' = w).
      { subst w'. unfold exec.
        rewrite (update_not_ready env w r q) by assumption. reflexivity. }
      rewrite Hw'. split; [exact Hinv|]. split; [reflexivity|]. split; [reflexivity|].
      split; [apply Permutation_refl|lia]. }
  (* dispatched *)
  set (w1 := exec (popTileQueue hasExtension) w).
  assert (Hw' : w' = exec (dispatch env r) w1).
  { subst w'. unfold exec at 1.
    rewrite (update_dispatches_ready env w r q) by assumption. reflexivity. }
  destruct (popTileQueue_effect w r q Hinv Hq)
    as ((J1 & J2 & J3 & J4 & J5) & P2 & P3 & P4 & P5 & P6 & P7 & P8 & P9).
  fold w1 in J1, J2, J3, J4, J5, P2, P3, P4, P5, P6, P7, P8, P9.
  assert (Hty : getType r = Model_TYPE \/ getType r = PrefabResource_TYPE).
  { rewrite Hr. apply load_type. }
  destruct (dispatch_effect env r w1 Hty) as (D1 & D2 & D3 & D4 & D5 & D6 & D7).
  rewrite <- Hw' in *.
  repeat split.
  - rewrite D1. exact J1.
  - rewrite P3, Hv in J2. intro Hv'.
    destruct D7 as [(E1 & E2)|[(E1 & E2)|(E1 & E2)]].
    + rewrite E2, P3, Hv in Hv'. discriminate.
    + rewrite E2, P3, Hv in Hv'. discriminate.
    + rewrite E1, P2. assumption.
  - rewrite D1, D2. exact J3.
  - rewrite D1. exact J4.
  - destruct D7 as [(E1 & E2)|[(E1 & E2)|(E1 & E2)]]; rewrite E1; lia.
  - destruct D7 as [(E1 & E2)|[(E1 & E2)|(E1 & E2)]]; rewrite E1; lia.
  - rewrite D3. exact P4.
  - rewrite D5. exact P6.
  - rewrite D4, P5. unfold pending_3d in *. rewrite D1, D2.
    rewrite <- app_assoc. simpl. apply Permutation_app_head. exact P8.
  - rewrite D6, P7. lia.
Qed.

Lemma invalid_entity_not_valid : isValid INVALID_ENTITY = true -> False.
Proof. unfold isValid, INVALID_ENTITY. simpl. discriminate. Qed.

Lemma renderPrefabSecondStage_effect :
  forall env model w,
    tile_inv (m_tile w) ->
    let w' := exec (renderPrefabSecondStage env model) w in
    tile_inv (m_tile w') /\
    queue (m_tile w') = queue (m_tile w) /\
    paths (m_tile w') = paths (m_tile w) /\
    m_texture_tile_creator w' = m_texture_tile_creator w /\
    handled_requests_3d w' = handled_requests_3d w /\
    handled_requests_image w' = handled_requests_image w /\
    render_starts w' = render_starts w.
Proof.
  intros env model w Hinv.
  pose proof Hinv as (I1 & I2 & I3 & I4 & I5).
  explode w. split_cases;
    try (split; [exact Hinv|trace_simpl; repeat split; reflexivity]).
  split.
  - unfold tile_inv. simpl.
    refine (conj I1 (conj _ (conj I3 (conj I4 _)))); [|lia].
    intro Hv. destruct (invalid_entity_not_valid Hv).
  - trace_simpl. repeat split; reflexivity.
Qed.

Lemma createTile_effect :
  forall env in_path out_path type w,
    tile_inv (m_tile w) ->
    let w' := exec (createTile hasExtension env in_path out_path type) w in
    tile_inv (m_tile w') /\
    frame_countdown (m_tile w') = frame_countdown (m_tile w) /\
    m_entity_in_fly (m_tile w') = m_entity_in_fly (m_tile w) /\
    (worker_inv (m_texture_tile_creator w) -> worker_inv (m_texture_tile_creator w')) /\
    handled_requests_3d w' = handled_requests_3d w /\
    handled_requests_image w' = handled_requests_image w /\
    render_starts w' = render_starts w /\
    Permutation (pending_3d w') (pending_3d w ++ request_3d in_path type) /\
    tiles (m_texture_tile_creator w') =
      tiles (m_texture_tile_creator w) ++ request_image in_path type.
Proof.
  intros env in_path out_path type w Hinv.
  pose proof Hinv as (I1 & I2 & I3 & I4 & I5).
  cbv zeta. unfold exec.
  assert (Hpush : Queue.full (queue (m_tile w)) = false ->
            tile_inv (set_queue (queue (m_tile w) ++ [load hasExtension in_path]) (m_tile w))).
  { intro Hfull. unfold Queue.full, Queue.capacity in Hfull.
    apply Nat.eqb_neq in Hfull. unfold tile_inv, Queue.capacity in *. simpl.
    rewrite length_app. simpl.
    refine (conj _ (conj I2 (conj _ (conj _ I5)))); try lia.
    - intro Hp. specialize (I3 Hp). lia.
    - apply Forall_app. split; auto. constructor; [apply load_load|constructor]. }
  assert (Hover : Queue.full (queue (m_tile w)) = true ->
            tile_inv (set_paths (paths (m_tile w) ++ [in_path]) (m_tile w))).
  { intro Hfull. unfold Queue.full, Queue.capacity in Hfull.
    apply Nat.eqb_eq in Hfull. unfold tile_inv, Queue.capacity in *. simpl.
    refine (conj I1 (conj I2 (conj _ (conj I4 I5)))). intros _. exact Hfull. }
  assert (H3d : Queue.full (queue (m_tile w)) = true \/ Queue.full (queue (m_tile w)) = false ->
    let w' := snd (true, if Queue.full (queue (m_tile w))
             then with_tile (set_paths (paths (m_tile w) ++ [in_path]) (m_tile w)) w
             else with_tile (set_queue (queue (m_tile w) ++ [load hasExtension in_path]) (m_tile w))
                            (with_events [EvLoad (load hasExtension in_path)] w)) in
    tile_inv (m_tile w') /\
    frame_countdown (m_tile w') = frame_countdown (m_tile w) /\
    m_entity_in_fly (m_tile w') = m_entity_in_fly (m_tile w) /\
    (worker_inv (m_texture_tile_creator w) -> worker_inv (m_texture_tile_creator w')) /\
    handled_requests_3d w' = handled_requests_3d w /\
    handled_requests_image w' = handled_requests_image w /\
    render_starts w' = render_starts w /\
    Permutation (pending_3d w') (pending_3d w ++ [load hasExtension in_path]) /\
    tiles (m_texture_tile_creator w') = tiles (m_texture_tile_creator w) ++ []).
  { intros _. destruct (Queue.full (queue (m_tile w))) eqn:Hfull; simpl.
    - split; [apply Hover; reflexivity|]. unfold pending_3d. trace_simpl.
      rewrite map_app, app_assoc. simpl. unfold worker_inv.
      repeat split; auto; tauto.
    - split; [apply Hpush; reflexivity|]. unfold pending_3d. trace_simpl.
      unfold worker_inv. repeat split; auto; try tauto. rewrite <- !app_assoc.
      apply Permutation_app_head, Permutation_app_comm. }
  destruct type;
    [rewrite createTile_texture| | |
     rewrite (createTile_3d env in_path out_path Model_TYPE) by auto|
     rewrite (createTile_3d env in_path out_path PrefabResource_TYPE) by auto| ];
    try (apply H3d; destruct (Queue.full _); auto).
  - (* Texture *)
    simpl. split; [exact Hinv|]. unfold pending_3d, worker_inv. trace_simpl.
    repeat split; auto; try tauto.
    destruct H as [_ H]. rewrite H. lia.
  - explode w. run_cmd. split; [exact Hinv|]. unfold pending_3d, worker_inv.
    trace_simpl. repeat split; auto; tauto.
  - explode w. run_cmd. split; [exact Hinv|]. unfold pending_3d, worker_inv.
    trace_simpl. repeat split; auto; tauto.
  - simpl. split; [exact Hinv|]. unfold pending_3d, worker_inv.
    rewrite !app_nil_r. repeat split; auto; tauto.
Qed.

Lemma worker_pass_frame :
  forall env w,
    let w' := exec (createTextureTileTask_iteration hasExtension crc32 env) w in
    m_tile w' = m_tile w /\
    handled_requests_3d w' = handled_requests_3d w /\
    render_starts w' = render_starts w.
Proof.
  intros env w. explode w. split_cases; trace_simpl; repeat split; reflexivity.
Qed.

Lemma worker_pass_effect :
  forall env w,
    worker_inv (m_texture_tile_creator w) ->
    let w' := exec (createTextureTileTask_iteration hasExtension crc32 env) w in
    worker_inv (m_texture_tile_creator w') /\
    Permutation (handled_requests_image w' ++ tiles (m_texture_tile_creator w'))
                (handled_requests_image w ++ tiles (m_texture_tile_creator w)) /\
    List.length (tiles (m_texture_tile_creator w')) =
      Nat.pred (List.length (tiles (m_texture_tile_creator w))).
Proof.
  intros env w (Hs & Hsem).
  destruct (list_back_cases _ (tiles (m_texture_tile_creator w)))
    as [Ht|(older & tile & Ht)].
  - rewrite Ht in Hsem. simpl in Hsem.
    explode w. subst. run_cmd. change (0 <=? 0) with true. run_cmd.
    unfold worker_inv. simpl. repeat split; auto.
  - rewrite Ht, length_app in Hsem. simpl in Hsem.
    assert (E : (semaphore (m_texture_tile_creator w) <=? 0) = false)
      by (apply Z.leb_gt; lia).
    assert (Hperm : forall h : list string,
               Permutation ((h ++ [tile]) ++ older) (h ++ older ++ [tile])).
    { intro h. rewrite <- app_assoc. apply Permutation_app_head, Permutation_app_comm. }
    explode w. subst shutdown0 tiles0. run_cmd. rewrite E. run_cmd.
    unfold Array.back, Array.pop. rewrite last_last, removelast_last.
    unfold worker_inv.
    split_cases; trace_simpl; rewrite ?length_app; simpl;
      (split; [split; [reflexivity|lia]|split; [apply Hperm|lia]]).
Qed.

Lemma shutdown_worker_frame :
  forall w,
    let w' := exec shutdown_worker w in
    m_tile w' = m_tile w /\
    handled_requests_3d w' = handled_requests_3d w /\
    render_starts w' = render_starts w.
Proof.
  intro w. explode w. run_cmd. repeat split; reflexivity.
Qed.

(** *** The ring under every entry point *)

Lemma tile_inv_ring :
  forall t, tile_inv t -> ring_inv t.
Proof.
  intros t (I1 & _ & I3 & I4 & I5). repeat split; auto; lia.
Qed.

Lemma ring_inv_idle :
  forall t, ring_inv t -> isValid (m_entity_in_fly t) = false -> tile_inv t.
Proof.
  intros t (I1 & I3 & I4 & I5) Hv. unfold tile_inv.
  refine (conj I1 (conj _ (conj I3 (conj I4 I5)))).
  intro H. rewrite Hv in H. discriminate.
Qed.

Lemma ring_inv_countdown :
  forall t n,
    ring_inv t -> -1 <= n <= 2 -> ring_inv (set_frame_countdown n t).
Proof.
  intros t n (I1 & I3 & I4 & I5) Hn. unfold ring_inv. simpl. auto.
Qed.

Lemma createTile_ring_inv :
  forall env in_path out_path type w,
    ring_inv (m_tile w) ->
    ring_inv (m_tile (exec (createTile hasExtension env in_path out_path type) w)).
Proof.
  intros env in_path out_path type w Hinv.
  pose proof Hinv as (I1 & I3 & I4 & I5).
  assert (H3d : ring_inv
            (m_tile (snd (true,
               if Queue.full (queue (m_tile w))
               then with_tile (set_paths (paths (m_tile w) ++ [in_path]) (m_tile w)) w
               else with_tile (set_queue (queue (m_tile w) ++ [load hasExtension in_path])
                                         (m_tile w))
                              (with_events [EvLoad (load hasExtension in_path)] w))))).
  { destruct (Queue.full (queue (m_tile w))) eqn:Hfull;
      unfold Queue.full, Queue.capacity in Hfull; simpl;
      unfold ring_inv, Queue.capacity in *; simpl.
    - apply Nat.eqb_eq in Hfull.
      refine (conj I1 (conj _ (conj I4 I5))). intros _. exact Hfull.
    - apply Nat.eqb_neq in Hfull. rewrite length_app. simpl.
      refine (conj _ (conj _ (conj _ I5))); try lia.
      + intro Hp. specialize (I3 Hp). lia.
      + apply Forall_app. split; auto. constructor; [apply load_load|constructor]. }
  unfold exec.
  destruct type;
    [rewrite createTile_texture| | |
     rewrite (createTile_3d env in_path out_path Model_TYPE) by auto|
     rewrite (createTile_3d env in_path out_path PrefabResource_TYPE) by auto| ];
    try exact H3d; try exact Hinv;
    explode w; run_cmd; exact Hinv.
Qed.

Lemma update_ring_inv :
  forall env w,
    ring_inv (m_tile w) ->
    let w' := exec (update hasExtension Path_getHash env) w in
    ring_inv (m_tile w') /\
    m_texture_tile_creator w' = m_texture_tile_creator w.
Proof.
  intros env w Hinv w'.
  destruct (isValid (m_entity_in_fly (m_tile w))) eqn:Hv.
  2:{ destruct (update_effect env w (ring_inv_idle _ Hinv Hv)) as (H1 & H2 & _).
      split; [apply tile_inv_ring; exact H1|exact H2]. }
  pose proof Hinv as (I1 & I3 & I4 & I5).
  subst w'. unfold exec.
  destruct (Z_lt_le_dec 0 (frame_countdown (m_tile w))) as [Hpos|Hle].
  { rewrite update_draining by assumption. simpl.
    split; [apply ring_inv_countdown; [exact Hinv|lia]|reflexivity]. }
  destruct (Z.eq_dec (frame_countdown (m_tile w)) 0) as [Hzero|Hnz].
  { rewrite update_finalize by assumption. simpl.
    split; [apply ring_inv_countdown; [exact Hinv|lia]|reflexivity]. }
  rewrite update_waiting_for_model by (try assumption; lia).
  split; [exact Hinv|reflexivity].
Qed.

Lemma renderPrefabSecondStage_ring_inv :
  forall env model w,
    ring_inv (m_tile w) ->
    let w' := exec (renderPrefabSecondStage env model) w in
    ring_inv (m_tile w') /\
    m_texture_tile_creator w' = m_texture_tile_creator w.
Proof.
  intros env model w (I1 & I3 & I4 & I5).
  explode w. split_cases; (split; [|reflexivity]);
    unfold ring_inv; simpl; repeat split; auto; lia.
Qed.

Lemma savePreview_ring_inv :
  forall env model mtx w,
    ring_inv (m_tile w) ->
    let w' := exec (savePreview Path_getHash env model mtx) w in
    ring_inv (m_tile w') /\
    m_texture_tile_creator w' = m_texture_tile_creator w.
Proof.
  intros env model mtx w (I1 & I3 & I4 & I5).
  explode w. split_cases; (split; [|reflexivity]);
    unfold ring_inv; simpl; repeat split; auto; lia.
Qed.

(** Every operation keeps the ring invariant. *)
Lemma step_ring_inv :
  forall o w,
    ring_inv (m_tile w) ->
    ring_inv (m_tile (step hasExtension crc32 Path_getHash o w)).
Proof.
  intros o w Hinv. destruct o; unfold step.
  - apply createTile_ring_inv; assumption.
  - apply update_ring_inv; assumption.
  - apply renderPrefabSecondStage_ring_inv; assumption.
  - apply savePreview_ring_inv; assumption.
  - destruct (worker_pass_frame env w) as (H & _). rewrite H. assumption.
  - destruct (shutdown_worker_frame w) as (H & _). rewrite H. assumption.
Qed.

Lemma run_ring_inv :
  forall ops w,
    ring_inv (m_tile w) ->
    ring_inv (m_tile (run hasExtension crc32 Path_getHash ops w)).
Proof.
  induction ops as [|o ops IH]; intros w Hinv; simpl; auto.
  apply IH, step_ring_inv, Hinv.
Qed.

Lemma init_ring_inv : ring_inv (m_tile init_world).
Proof.
  apply tile_inv_ring, init_tile_inv.
Qed.

(** C7: the admission ring never holds more than 8 requests, whatever
    operations have run since construction; a Model or Prefab request that
    arrives while the ring is full leaves the ring as it is and goes to the
    back of the overflow array. *)
Theorem admission_ring_never_exceeds_capacity :
  forall (ops : list Op) (env : Env) (in_path out_path : string),
    let w := run hasExtension crc32 Path_getHash ops init_world in
    let w' := exec (createTile hasExtension env in_path out_path Model_TYPE) w in
    let w'' := exec (createTile hasExtension env in_path out_path PrefabResource_TYPE) w in
    (List.length (queue (m_tile w)) <= 8)%nat /\
    queue (m_tile w') =
      (if Queue.full (queue (m_tile w)) then queue (m_tile w)
       else queue (m_tile w) ++ [load hasExtension in_path]) /\
    paths (m_tile w') =
      (if Queue.full (queue (m_tile w)) then paths (m_tile w) ++ [in_path]
       else paths (m_tile w)) /\
    m_tile w'' = m_tile w'.
Proof.
  intros ops env in_path out_path w w' w''.
  split.
  - apply (run_ring_inv ops init_world init_ring_inv).
  - subst w' w''. unfold exec.
    rewrite (createTile_3d env in_path out_path Model_TYPE) by auto.
    rewrite (createTile_3d env in_path out_path PrefabResource_TYPE) by auto.
    simpl. destruct (Queue.full (queue (m_tile w))); simpl; auto.
Qed.

(** *** Jobs in flight *)

Ltac jobs_simpl :=
  unfold jobs_in_flight, read_backs, finalized, render_starts; simpl;
  rewrite ?filter_app, ?length_app; simpl.

(** [update] starts a render only when no entity is in flight and no
    countdown is running. *)
Lemma update_render_is_guarded :
  forall env w,
    render_starts (exec (update hasExtension Path_getHash env) w) <> render_starts w ->
    isValid (m_entity_in_fly (m_tile w)) = false /\ frame_countdown (m_tile w) < 0.
Proof.
  intros env w Hne.
  destruct (Z_lt_le_dec 0 (frame_countdown (m_tile w))) as [Hpos|Hle].
  { exfalso. apply Hne. unfold exec. rewrite update_draining by assumption.
    reflexivity. }
  destruct (Z.eq_dec (frame_countdown (m_tile w)) 0) as [Hzero|Hnz].
  { exfalso. apply Hne. unfold exec. rewrite update_finalize by assumption.
    unfold saveAsDDS_events. destruct (encode_fails env _); jobs_simpl; lia. }
  assert (Hneg : frame_countdown (m_tile w) < 0) by lia.
  destruct (isValid (m_entity_in_fly (m_tile w))) eqn:Hv; [|auto].
  exfalso. apply Hne. unfold exec. rewrite update_waiting_for_model by assumption.
  reflexivity.
Qed.

(** C6: the pipeline is not strictly serial.  [update] starts a render
    only when nothing is in flight, but the two other callers do not look:
    "Save preview" calls [renderTile(&model, &mtx)] whatever the state, and
    [renderPrefabSecondStage] renders whenever the callback fires on a
    ready model.  Each issues a read-back on top of the job in flight,
    overwriting its texture handle and countdown, so that one more job is
    in flight than before. *)
Theorem second_tile_job_starts_before_first_is_finalized :
  forall (env envu : Env) (model : Resource) (mtx : Matrix) (w : World),
    has_render_scene env = true ->
    has_renderer env = true ->
    isReady env model = true ->
    let wp := step hasExtension crc32 Path_getHash (OpSavePreview env model mtx) w in
    let wc := step hasExtension crc32 Path_getHash (OpSecondStage env model) w in
    (render_starts (exec (update hasExtension Path_getHash envu) w) <> render_starts w ->
     isValid (m_entity_in_fly (m_tile w)) = false /\ frame_countdown (m_tile w) < 0) /\
    (jobs_in_flight wp = jobs_in_flight w + 1 /\
     m_entity_in_fly (m_tile wp) = m_entity_in_fly (m_tile w) /\
     frame_countdown (m_tile wp) = 2 /\
     texture (m_tile wp) = createTexture2D env /\
     finalized wp = finalized w) /\
    (isValid (m_entity_in_fly (m_tile w)) = false ->
     jobs_in_flight wc = jobs_in_flight w + 1 /\
     frame_countdown (m_tile wc) = 2 /\
     texture (m_tile wc) = createTexture2D env /\
     finalized wc = finalized w).
Proof.
  intros env envu model mtx w Hs Hr Hready wp wc.
  split; [apply update_render_is_guarded|]. split.
  - subst wp. unfold step. explode w. run_cmd. rewrite Hs, Hr. cbn [negb]. run_cmd.
    jobs_simpl. repeat split; lia.
  - intro Hv. subst wc. unfold step. explode w. run_cmd.
    rewrite Hs, Hr, Hready. cbn [negb]. run_cmd.
    jobs_simpl. rewrite Hv. cbn [isValid INVALID_ENTITY]. simpl.
    repeat split; lia.
Qed.

(** *** Liveness under a fair environment *)

Lemma update_progress :
  forall env w,
    tile_inv (m_tile w) ->
    (forall r, isFailure env r = true \/ isReady env r = true) ->
    isValid (m_entity_in_fly (m_tile w)) = false ->
    (work_3d (m_tile (exec (update hasExtension Path_getHash env) w))
       <= Nat.pred (work_3d (m_tile w)))%nat.
Proof.
  intros env w Hinv Hfair Hv.
  pose proof Hinv as (I1 & I2 & I3 & I4 & I5).
  destruct (Z_lt_le_dec 0 (frame_countdown (m_tile w))) as [Hpos|Hle].
  { unfold exec. rewrite update_draining by assumption.
    unfold work_3d. simpl. rewrite Hv. lia. }
  destruct (Z.eq_dec (frame_countdown (m_tile w)) 0) as [Hzero|Hnz].
  { unfold exec. rewrite update_finalize by assumption.
    unfold work_3d. simpl. rewrite Hv, Hzero. simpl. lia. }
  assert (Hneg : frame_countdown (m_tile w) < 0) by lia.
  destruct (queue (m_tile w)) as [|r q] eqn:Hq.
  { unfold exec. rewrite update_ring_empty by assumption. simpl.
    unfold work_3d. rewrite Hq, Hv.
    destruct (paths (m_tile w)) eqn:Hp.
    - replace (frame_countdown (m_tile w)) with (-1) by lia. simpl. lia.
    - assert (Hne : s :: l <> []) by discriminate.
      specialize (I3 Hne). discriminate. }
  destruct (isFailure env r) eqn:Hfail.
  { unfold exec. rewrite (update_drops_failed env w r q) by (try rewrite Hq; auto).
    destruct (popTileQueue_effect
                (with_events [EvLogFailedToLoadResource (getPath r)] w) r q Hinv Hq)
      as (_ & P2 & P3 & _ & _ & _ & _ & _ & P9).
    unfold exec in P2, P3, P9. simpl in P2, P3, P9.
    unfold work_3d. rewrite P2, P3, Hv, Hq. rewrite Hq in P9. simpl in P9.
    simpl. lia. }
  assert (Hready : isReady env r = true).
  { destruct (Hfair r) as [H|H]; congruence. }
  assert (Hr : r = load hasExtension (getPath r)) by (inversion I4; assumption).
  unfold exec at 1.
  rewrite (update_dispatches_ready env w r q) by (try rewrite Hq; auto).
  set (w1 := exec (popTileQueue hasExtension) w).
  destruct (popTileQueue_effect w r q Hinv Hq) as (_ & P2 & P3 & _ & _ & _ & _ & _ & P9).
  fold w1 in P2, P3, P9.
  assert (Hty : getType r = Model_TYPE \/ getType r = PrefabResource_TYPE).
  { rewrite Hr. apply load_type. }
  destruct (dispatch_effect env r w1 Hty) as (D1 & D2 & _ & _ & _ & _ & D7).
  unfold exec in D1, D2, D7. unfold work_3d. rewrite D1, D2.
  rewrite Hq in P9. simpl in P9.
  destruct D7 as [(E1 & E2)|[(E1 & E2)|(E1 & E2)]];
    rewrite E1, ?E2, ?P2, ?P3, ?Hv, ?Hq; simpl; lia.
Qed.

Lemma fair_round_effect :
  forall em w r3 ri,
    fair em ->
    tile_inv (m_tile w) ->
    worker_inv (m_texture_tile_creator w) ->
    accounted w r3 ri ->
    let w' := fair_round em w in
    tile_inv (m_tile w') /\
    worker_inv (m_texture_tile_creator w') /\
    accounted w' r3 ri /\
    (work_left w' <= Nat.pred (work_left w))%nat.
Proof.
  intros [env model] w r3 ri (Fs & Fr & Fm & Fall) Hinv Hwinv (A3 & AI).
  simpl in Fs, Fr, Fm, Fall. unfold fair_round, step. simpl fst. simpl snd.
  set (w1 := if isValid (m_entity_in_fly (m_tile w))
             then exec (renderPrefabSecondStage env model) w
             else w).
  (* the callback, when an entity is in flight *)
  assert (H1 : tile_inv (m_tile w1) /\
               m_texture_tile_creator w1 = m_texture_tile_creator w /\
               handled_requests_3d w1 = handled_requests_3d w /\
               handled_requests_image w1 = handled_requests_image w /\
               pending_3d w1 = pending_3d w /\
               isValid (m_entity_in_fly (m_tile w1)) = false /\
               (work_3d (m_tile w1) <= work_3d (m_tile w))%nat /\
               (isValid (m_entity_in_fly (m_tile w)) = true ->
                0 < frame_countdown (m_tile w1))).
  { subst w1. destruct (tile_inv_unfold _ Hinv) as [Hv|(Hv & Hc)]; rewrite Hv.
    - split; [exact Hinv|]. split; [reflexivity|]. split; [reflexivity|].
      split; [reflexivity|]. split; [reflexivity|]. split; [exact Hv|].
      split; [lia|]. intro; discriminate.
    - destruct (renderPrefabSecondStage_effect env model w Hinv)
        as (S1 & S2 & S3 & S4 & S5 & S6 & _).
      split; [exact S1|]. split; [exact S4|]. split; [exact S5|].
      split; [exact S6|]. unfold pending_3d. rewrite S2, S3.
      split; [reflexivity|].
      unfold exec in *. rewrite renderPrefabSecondStage_renders in * by assumption.
      simpl. unfold work_3d. simpl. rewrite Hv, Hc. simpl.
      repeat split; auto; lia. }
  destruct H1 as (Hinv1 & C1 & H31 & HI1 & P1 & Hv1 & W1 & Hcd1).
  (* the tick *)
  destruct (update_effect env w1 Hinv1) as (Hinv2 & C2 & HI2 & P2 & _).
  pose proof (update_progress env w1 Hinv1 Fall Hv1) as W2.
  set (w2 := exec (update hasExtension Path_getHash env) w1) in *.
  (* the worker *)
  destruct (worker_pass_frame env w2) as (T3 & H33 & _).
  assert (Hwinv2 : worker_inv (m_texture_tile_creator w2)).
  { rewrite C2, C1. exact Hwinv. }
  destruct (worker_pass_effect env w2 Hwinv2) as (Hwinv3 & PI3 & L3).
  set (w3 := exec (createTextureTileTask_iteration hasExtension crc32 env) w2) in *.
  split; [rewrite T3; exact Hinv2|]. split; [exact Hwinv3|]. split.
  - split.
    + unfold pending_3d in *. rewrite H33, T3.
      eapply Permutation_trans; [exact P2|]. rewrite H31, P1. exact A3.
    + eapply Permutation_trans; [exact PI3|]. rewrite HI2, HI1, C2, C1. exact AI.
  - unfold work_left. rewrite T3, L3, C2, C1.
    assert (Hstrict : (work_3d (m_tile w) = 0 \/
                       work_3d (m_tile w2) < work_3d (m_tile w))%nat).
    { destruct (Nat.eq_dec (work_3d (m_tile w1)) 0) as [Hz|Hnz].
      - destruct (tile_inv_unfold _ Hinv) as [Hv|(Hv & Hc)].
        + left. subst w1. rewrite Hv in Hz. exact Hz.
        + specialize (Hcd1 Hv). unfold work_3d in Hz. lia.
      - right. lia. }
    lia.
Qed.

Lemma fair_run_effect :
  forall sched w r3 ri,
    Forall fair sched ->
    tile_inv (m_tile w) ->
    worker_inv (m_texture_tile_creator w) ->
    accounted w r3 ri ->
    let w' := fair_run sched w in
    tile_inv (m_tile w') /\
    worker_inv (m_texture_tile_creator w') /\
    accounted w' r3 ri /\
    (work_left w' <= work_left w - List.length sched)%nat.
Proof.
  induction sched as [|em sched IH]; intros w r3 ri Hfair Hinv Hwinv Hacc.
  - simpl. split; [exact Hinv|]. split; [exact Hwinv|]. split; [exact Hacc|lia].
  - inversion Hfair as [|? ? Hem Hrest]; subst.
    destruct (fair_round_effect em w r3 ri Hem Hinv Hwinv Hacc) as (R1 & R2 & R3 & R4).
    destruct (IH (fair_round em w) r3 ri Hrest R1 R2 R3) as (Q1 & Q2 & Q3 & Q4).
    change (fair_run (em :: sched) w) with (fair_run sched (fair_round em w)).
    cbv zeta in Q1, Q2, Q3, Q4.
    split; [exact Q1|]. split; [exact Q2|]. split; [exact Q3|].
    simpl List.length. lia.
Qed.

Lemma submits_effect :
  forall reqs w,
    tile_inv (m_tile w) ->
    worker_inv (m_texture_tile_creator w) ->
    let w' := run hasExtension crc32 Path_getHash (map submit reqs) w in
    tile_inv (m_tile w') /\
    worker_inv (m_texture_tile_creator w') /\
    frame_countdown (m_tile w') = frame_countdown (m_tile w) /\
    m_entity_in_fly (m_tile w') = m_entity_in_fly (m_tile w) /\
    handled_requests_3d w' = handled_requests_3d w /\
    handled_requests_image w' = handled_requests_image w /\
    Permutation (pending_3d w') (pending_3d w ++ requests_3d reqs) /\
    tiles (m_texture_tile_creator w') =
      tiles (m_texture_tile_creator w) ++ requests_image reqs.
Proof.
  induction reqs as [|[[[env i] o] ty] reqs IH]; intros w Hinv Hwinv.
  - simpl. rewrite !app_nil_r.
    split; [exact Hinv|]. split; [exact Hwinv|]. repeat split; auto.
  - simpl map. simpl run.
    destruct (createTile_effect env i o ty w Hinv)
      as (E1 & E2 & E3 & E4 & E5 & E6 & _ & E8 & E9).
    specialize (E4 Hwinv).
    destruct (IH _ E1 E4) as (Q1 & Q2 & Q3 & Q4 & Q5 & Q6 & Q7 & Q8).
    unfold requests_3d, requests_image. simpl flat_map.
    split; [exact Q1|]. split; [exact Q2|].
    split; [rewrite Q3; exact E2|]. split; [rewrite Q4; exact E3|].
    split; [rewrite Q5; exact E5|]. split; [rewrite Q6; exact E6|].
    split.
    + eapply Permutation_trans; [exact Q7|]. rewrite app_assoc.
      apply Permutation_app_tail. exact E8.
    + rewrite Q8, E9, app_assoc. reflexivity.
Qed.

Lemma work_3d_pending :
  forall w,
    isValid (m_entity_in_fly (m_tile w)) = false ->
    frame_countdown (m_tile w) = -1 ->
    work_3d (m_tile w) = (4 * List.length (pending_3d w))%nat.
Proof.
  intros w Hv Hc. unfold work_3d, pending_3d.
  rewrite Hv, Hc, length_app, length_map. simpl. lia.
Qed.

(** *** When no load fails, nothing is dropped *)











(** *** What each request left behind *)


















(** *** Failure paths *)

Lemma worker_open_failure_is_logged :
  forall env w older tile,
    worker_has w older tile ->
    hasExtension tile "dds" = true ->
    file_open env tile = false ->
    createTextureTileTask_iteration hasExtension crc32 env w =
    (Continue,
     mkWorld (m_tile w)
       (mkTextureTileCreator false (semaphore (m_texture_tile_creator w) - 1) older)
       (trace w ++ [EvFileOpenRead tile;
                    EvCopyFile tile_texture_dds (tile_path (crc32 tile));
                    EvLogFailedToLoadTile tile])).
Proof.
  intros env w older tile H Hext Hopen. worker_case H w.
  rewrite Hext, Hopen. cbn [negb]. run_cmd. rewrite <- !app_assoc. reflexivity.
Qed.

Lemma worker_decode_failure_is_logged :
  forall env w older tile,
    worker_has w older tile ->
    hasExtension tile "dds" = false ->
    stbi_load_ok env tile = false ->
    createTextureTileTask_iteration hasExtension crc32 env w =
    (Continue,
     mkWorld (m_tile w)
       (mkTextureTileCreator false (semaphore (m_texture_tile_creator w) - 1) older)
       (trace w ++ [EvStbiLoad tile;
                    EvLogFailedToLoadTile tile;
                    EvCopyFile tile_texture_dds (tile_path (crc32 tile))])).
Proof.
  intros env w older tile H Hext Hload. worker_case H w.
  rewrite Hext, Hload. cbn [negb]. run_cmd. rewrite <- !app_assoc. reflexivity.
Qed.

(** C5 (the code at the failing input): for a [.dds] tile that opens but
    that [crn_decompress_dds_to_images] rejects, the worker copies the
    placeholder to the cache path and goes on, but, unlike the two sibling
    failure branches, writes nothing to the log. *)
Theorem worker_dds_decompress_failure_is_not_logged :
  forall (env : Env) (w : World) (older : list string) (tile : string),
    worker_has w older tile ->
    hasExtension tile "dds" = true ->
    file_open env tile = true ->
    crn_decompress_ok env tile = false ->
    createTextureTileTask_iteration hasExtension crc32 env w =
    (Continue,
     mkWorld (m_tile w)
       (mkTextureTileCreator false (semaphore (m_texture_tile_creator w) - 1) older)
       (trace w ++ [EvFileOpenRead tile;
                    EvCopyFile tile_texture_dds (tile_path (crc32 tile))])).
Proof.
  intros env w older tile H Hext Hopen Hdec. worker_case H w.
  rewrite Hext, Hopen, Hdec. cbn [negb]. run_cmd.
  rewrite <- !app_assoc. reflexivity.
Qed.

(** C4 (as the code has it): when [saveAsDDS] fails, neither path
    substitutes the placeholder.  The worker logs "Failed to save" and goes
    on to the next request; [update] ignores the result, destroys the
    read-back texture and returns the countdown to -1. *)
Theorem encode_failure_substitutes_no_placeholder :
  forall (env envf : Env) (w wf : World) (older : list string) (tile : string),
    worker_has w older tile ->
    decodes env tile = true ->
    encode_fails env (tile_path (crc32 tile)) = true ->
    frame_countdown (m_tile wf) = 0 ->
    encode_fails envf (tile_path (path_hash (m_tile wf))) = true ->
    createTextureTileTask_iteration hasExtension crc32 env w =
    (Continue,
     mkWorld (m_tile w)
       (mkTextureTileCreator false (semaphore (m_texture_tile_creator w) - 1) older)
       (trace w ++ [opens tile; EvResize tile;
                    EvLogFailedToSave (tile_path (crc32 tile))])) /\
    update hasExtension Path_getHash envf wf =
    (tt, with_tile (set_frame_countdown (-1) (m_tile wf))
           (with_events [EvDestroyTexture (texture (m_tile wf))] wf)).
Proof.
  intros env envf w wf older tile H Hdec Henc Hcd Hencf. split.
  - unfold decodes in Hdec. unfold encode_fails in Henc. worker_case H w.
    destruct (hasExtension tile "dds").
    + apply andb_true_iff in Hdec. destruct Hdec as (Ho & Hd).
      rewrite Ho, Hd. cbn [negb]. run_cmd.
      destruct (crn_compress_ok env); cbn [negb orb] in *; run_cmd;
        [rewrite negb_true_iff in Henc; rewrite Henc|];
        repeat (progress (cbn [negb]; run_cmd));
        rewrite <- !app_assoc; reflexivity.
    + rewrite Hdec. cbn [negb]. run_cmd.
      destruct (crn_compress_ok env); cbn [negb orb] in *; run_cmd;
        [rewrite negb_true_iff in Henc; rewrite Henc|];
        repeat (progress (cbn [negb]; run_cmd));
        rewrite <- !app_assoc; reflexivity.
  - rewrite update_finalize by assumption.
    unfold saveAsDDS_events. rewrite Hencf. reflexivity.
Qed.


(** ** Further properties of the tile pipeline *)

Ltac run_cmd_in H :=
  cbv beta iota zeta delta
    [exec result createTile update popTileQueue pushTileQueue
     renderTile_Model renderTile_Prefab renderPrefabSecondStage
     render_and_read_back createTextureTileTask_iteration shutdown_worker
     savePreview saveAsDDS copyFile modify_tile bind ret get_tile put_tile
     get_creator put_creator emit fst snd
     set_m_entity_in_fly set_frame_countdown set_path_hash set_texture
     set_queue set_paths
     m_tile m_texture_tile_creator trace m_entity_in_fly frame_countdown
     path_hash texture queue paths shutdown semaphore tiles] in H.

Ltac asserts_simpl :=
  unfold asserts; simpl; rewrite ?filter_app; simpl; rewrite ?app_nil_r.

Lemma popTileQueue_asserts :
  forall w,
    (List.length (queue (m_tile w)) <= Queue.capacity)%nat ->
    asserts (exec (popTileQueue hasExtension) w) = asserts w.
Proof.
  intros w Hlen.
  assert (Hf : Queue.full (Queue.pop (queue (m_tile w))) = false).
  { unfold Queue.full, Queue.pop, Queue.capacity in *.
    apply Nat.eqb_neq. destruct (queue (m_tile w)); simpl in *; lia. }
  explode w. run_cmd.
  destruct (Array.empty paths0); run_cmd; [reflexivity|].
  rewrite Hf. run_cmd. asserts_simpl. reflexivity.
Qed.

Lemma dispatch_asserts :
  forall env r w,
    getType r = Model_TYPE \/ getType r = PrefabResource_TYPE ->
    asserts (exec (dispatch env r) w) = asserts w.
Proof.
  intros env r w [Ht|Ht]; unfold dispatch; rewrite Ht; explode w; run_cmd;
    try destruct (getModelInstanceModel env (instantiatePrefab env r));
    split_cases; asserts_simpl; reflexivity.
Qed.

Lemma update_asserts :
  forall env w,
    ring_inv (m_tile w) ->
    asserts (exec (update hasExtension Path_getHash env) w) = asserts w.
Proof.
  intros env w Hinv.
  pose proof Hinv as (I1 & I3 & I4 & I5).
  destruct (Z_lt_le_dec 0 (frame_countdown (m_tile w))) as [Hpos|Hle].
  { unfold exec. rewrite update_draining by assumption. reflexivity. }
  destruct (Z.eq_dec (frame_countdown (m_tile w)) 0) as [Hzero|Hnz].
  { unfold exec. rewrite update_finalize by assumption.
    unfold saveAsDDS_events. destruct (encode_fails env _); asserts_simpl; reflexivity. }
  assert (Hneg : frame_countdown (m_tile w) < 0) by lia.
  destruct (isValid (m_entity_in_fly (m_tile w))) eqn:Hv.
  { unfold exec. rewrite update_waiting_for_model by assumption. reflexivity. }
  destruct (queue (m_tile w)) as [|r q] eqn:Hq.
  { unfold exec. rewrite update_ring_empty by assumption. reflexivity. }
  assert (Hlen : (List.length (queue (m_tile w)) <= Queue.capacity)%nat)
    by (rewrite Hq; exact I1).
  destruct (isFailure env r) eqn:Hfail.
  { unfold exec at 1. rewrite (update_drops_failed env w r q) by auto.
    fold (exec (popTileQueue hasExtension)
               (with_events [EvLogFailedToLoadResource (getPath r)] w)).
    rewrite popTileQueue_asserts by exact Hlen. asserts_simpl. reflexivity. }
  destruct (isReady env r) eqn:Hready.
  - unfold exec at 1. rewrite (update_dispatches_ready env w r q) by auto.
    fold (exec (dispatch env r) (exec (popTileQueue hasExtension) w)).
    rewrite dispatch_asserts, popTileQueue_asserts; auto.
    inversion I4 as [|? ? Hr _]. rewrite Hr. apply load_type.
  - unfold exec. rewrite (update_not_ready env w r q) by auto. reflexivity.
Qed.

Lemma step_asserts :
  forall o w,
    ring_inv (m_tile w) ->
    asserts (step hasExtension crc32 Path_getHash o w) = asserts w.
Proof.
  intros o w Hinv. destruct o; unfold step.
  - explode w. destruct type; split_cases; asserts_simpl; reflexivity.
  - apply update_asserts, Hinv.
  - explode w. split_cases; asserts_simpl; reflexivity.
  - explode w. split_cases; asserts_simpl; reflexivity.
  - explode w. split_cases; asserts_simpl; reflexivity.
  - explode w. run_cmd. reflexivity.
Qed.

(** X1: neither [ASSERT(!m_tile.queue.full())] in [pushTileQueue] nor
    [ASSERT(false)] in [update] ever fires, whatever operations run on the
    constructed plugin. *)
Theorem assertions_never_fire :
  forall ops : list Op,
    ~ In EvAssertFailed (trace (run hasExtension crc32 Path_getHash ops init_world)).
Proof.
  intro ops.
  assert (H : forall ops w, ring_inv (m_tile w) ->
              asserts (run hasExtension crc32 Path_getHash ops w) = asserts w).
  { clear ops. induction ops as [|o ops IH]; intros w Hinv; [reflexivity|].
    simpl. rewrite IH by (apply step_ring_inv, Hinv). apply step_asserts, Hinv. }
  specialize (H ops init_world init_ring_inv).
  intro Hin.
  assert (Hin' : In EvAssertFailed
                    (asserts (run hasExtension crc32 Path_getHash ops init_world))).
  { unfold asserts. apply filter_In. split; [exact Hin|reflexivity]. }
  rewrite H in Hin'. exact Hin'.
Qed.

Lemma step_creator_inv :
  forall o w,
    ring_inv (m_tile w) ->
    creator_inv (m_texture_tile_creator w) ->
    creator_inv (m_texture_tile_creator (step hasExtension crc32 Path_getHash o w)).
Proof.
  intros o w Htile Hinv. destruct o; unfold step.
  - unfold creator_inv in *. explode w.
    destruct type; split_cases; try exact Hinv; simpl in *.
    intro Hs. rewrite (Hinv Hs). unfold Array.push. rewrite length_app. simpl. lia.
  - destruct (update_ring_inv env w Htile) as (_ & Hc). rewrite Hc. exact Hinv.
  - destruct (renderPrefabSecondStage_ring_inv env model w Htile) as (_ & Hc).
    rewrite Hc. exact Hinv.
  - destruct (savePreview_ring_inv env model mtx w Htile) as (_ & Hc).
    rewrite Hc. exact Hinv.
  - unfold creator_inv in *. intro Hs'.
    destruct (shutdown (m_texture_tile_creator w)) eqn:Hs.
    + explode w. subst. run_cmd_in Hs'. discriminate.
    + specialize (Hinv eq_refl).
      destruct (worker_pass_effect env w (conj Hs Hinv)) as ((_ & H) & _).
      exact H.
  - unfold creator_inv. explode w. run_cmd. discriminate.
Qed.

Lemma run_creator_inv :
  forall ops w,
    ring_inv (m_tile w) ->
    creator_inv (m_texture_tile_creator w) ->
    creator_inv (m_texture_tile_creator (run hasExtension crc32 Path_getHash ops w)).
Proof.
  induction ops as [|o ops IH]; intros w Htile Hinv; [exact Hinv|].
  simpl. apply IH; [apply step_ring_inv, Htile|apply step_creator_inv; assumption].
Qed.

(** The pass took [tile] from the back of the pending array. *)
Lemma worker_pass_takes :
  forall env w older tile,
    worker_has w older tile ->
    let w' := exec (createTextureTileTask_iteration hasExtension crc32 env) w in
    result (createTextureTileTask_iteration hasExtension crc32 env) w = Continue /\
    m_tile w' = m_tile w /\
    m_texture_tile_creator w' =
      mkTextureTileCreator false (semaphore (m_texture_tile_creator w) - 1) older /\
    handled_requests_image w' = handled_requests_image w ++ [tile].
Proof.
  intros env w older tile H. worker_case H w.
  split_cases; trace_simpl; repeat split; reflexivity.
Qed.

(** X2: the worker never reads [tiles.back()] of an empty array: whatever
    operations have run (the destructor's shutdown included), a pass that
    runs to its end found a pending request and removed exactly that one. *)
Theorem worker_never_pops_empty :
  forall (ops : list Op) (env : Env),
    let w := run hasExtension crc32 Path_getHash ops init_world in
    result (createTextureTileTask_iteration hasExtension crc32 env) w = Continue ->
    exists older tile,
      tiles (m_texture_tile_creator w) = older ++ [tile] /\
      tiles (m_texture_tile_creator
               (exec (createTextureTileTask_iteration hasExtension crc32 env) w)) = older.
Proof.
  intros ops env w Hres.
  assert (Hinv : creator_inv (m_texture_tile_creator w)).
  { apply run_creator_inv; [exact init_ring_inv|]. intros _. reflexivity. }
  assert (Hs : shutdown (m_texture_tile_creator w) = false).
  { clearbody w. explode w. run_cmd_in Hres. destruct shutdown0; [discriminate|reflexivity]. }
  specialize (Hinv Hs).
  destruct (list_back_cases _ (tiles (m_texture_tile_creator w)))
    as [Ht|(older & tile & Ht)].
  - exfalso. rewrite Ht in Hinv. simpl in Hinv.
    clearbody w. explode w. subst. run_cmd_in Hres.
    change (0 <=? 0) with true in Hres. discriminate.
  - exists older, tile. split; [exact Ht|].
    assert (Hhas : worker_has w older tile).
    { repeat split; auto. rewrite Hinv, Ht, length_app. simpl. lia. }
    destruct (worker_pass_takes env w older tile Hhas) as (_ & _ & Hc & _).
    rewrite Hc. reflexivity.
Qed.

Lemma updates_fixpoint :
  forall (P : Env -> Prop) w,
    (forall env, P env -> update hasExtension Path_getHash env w = (tt, w)) ->
    forall envs,
      Forall P envs ->
      run hasExtension crc32 Path_getHash (map OpUpdate envs) w = w.
Proof.
  intros P w Hfix envs. induction envs as [|env envs IH]; intro H; [reflexivity|].
  inversion H as [|? ? Hp Hrest]; subst. simpl. unfold exec.
  rewrite (Hfix env Hp). simpl. apply IH, Hrest.
Qed.

(** X6: head-of-line blocking.  While the resource at the front of the
    ring is neither failed nor ready, no number of [update] calls changes
    anything: requests behind it are not looked at, even if they are
    ready. *)
Theorem update_waits_for_front_resource :
  forall (envs : list Env) (w : World) (r : Resource) (q : list Resource),
    frame_countdown (m_tile w) < 0 ->
    isValid (m_entity_in_fly (m_tile w)) = false ->
    queue (m_tile w) = r :: q ->
    Forall (still_loading r) envs ->
    run hasExtension crc32 Path_getHash (map OpUpdate envs) w = w.
Proof.
  intros envs w r q Hc Hv Hq H.
  apply (updates_fixpoint (still_loading r)); [|exact H].
  intros env (Hf & Hr). apply (update_not_ready env w r q); assumption.
Qed.

(** X7: while a prefab's entity is in flight (its model has not called
    back), [update] does nothing at all, however often it is called: only
    [renderPrefabSecondStage] releases the pipeline. *)
Theorem update_blocked_while_entity_in_flight :
  forall (envs : list Env) (w : World),
    frame_countdown (m_tile w) < 0 ->
    isValid (m_entity_in_fly (m_tile w)) = true ->
    run hasExtension crc32 Path_getHash (map OpUpdate envs) w = w.
Proof.
  intros envs w Hc Hv.
  apply (updates_fixpoint (fun _ => True)).
  - intros env _. apply update_waiting_for_model; assumption.
  - apply Forall_forall. auto.
Qed.

(** *** The worker loop *)

Lemma worker_loop_step :
  forall fuel envs w,
    createTextureTileTask hasExtension crc32 (S fuel) envs w =
    match result (createTextureTileTask_iteration hasExtension crc32 (envs fuel)) w with
    | Continue =>
      createTextureTileTask hasExtension crc32 fuel envs
        (exec (createTextureTileTask_iteration hasExtension crc32 (envs fuel)) w)
    | st => (st, exec (createTextureTileTask_iteration hasExtension crc32 (envs fuel)) w)
    end.
Proof.
  intros fuel envs w. simpl. unfold bind at 1. unfold result, exec.
  destruct (createTextureTileTask_iteration hasExtension crc32 (envs fuel) w)
    as [st w1].
  simpl. destruct st; reflexivity.
Qed.

Lemma worker_pass_blocks_when_idle :
  forall env w,
    shutdown (m_texture_tile_creator w) = false ->
    semaphore (m_texture_tile_creator w) = 0 ->
    createTextureTileTask_iteration hasExtension crc32 env w = (Blocked, w).
Proof.
  intros env w Hs Hsem. explode w. subst. run_cmd.
  change (0 <=? 0) with true. reflexivity.
Qed.

(** X4: left alone with [n] pending image requests, the worker loop
    processes all of them, newest first, then blocks on the semaphore with
    nothing pending; it never touches the tile state of the pipeline. *)
Theorem worker_loop_drains_newest_first :
  forall (pending : list string) (fuel : nat) (envs : nat -> Env) (w : World),
    shutdown (m_texture_tile_creator w) = false ->
    semaphore (m_texture_tile_creator w) = Z.of_nat (List.length pending) ->
    tiles (m_texture_tile_creator w) = pending ->
    (List.length pending < fuel)%nat ->
    let w' := exec (createTextureTileTask hasExtension crc32 fuel envs) w in
    result (createTextureTileTask hasExtension crc32 fuel envs) w = Blocked /\
    tiles (m_texture_tile_creator w') = [] /\
    handled_requests_image w' = handled_requests_image w ++ rev pending /\
    m_tile w' = m_tile w.
Proof.
  induction pending as [|tile older IH] using rev_ind;
    intros fuel envs w Hs Hsem Ht Hfuel; destruct fuel as [|fuel]; try (simpl in Hfuel; lia).
  - assert (Heq : createTextureTileTask hasExtension crc32 (S fuel) envs w = (Blocked, w)).
    { rewrite worker_loop_step. unfold result, exec.
      rewrite worker_pass_blocks_when_idle by assumption. reflexivity. }
    cbv zeta. unfold result, exec. rewrite Heq. simpl.
    rewrite app_nil_r. auto.
  - rewrite length_app in Hsem, Hfuel. simpl in Hsem, Hfuel.
    assert (Hhas : worker_has w older tile) by (repeat split; auto; lia).
    destruct (worker_pass_takes (envs fuel) w older tile Hhas) as (Hr & Hm & Hc & Hh).
    set (w1 := exec (createTextureTileTask_iteration hasExtension crc32 (envs fuel)) w) in *.
    assert (Heq : createTextureTileTask hasExtension crc32 (S fuel) envs w =
                  createTextureTileTask hasExtension crc32 fuel envs w1).
    { rewrite worker_loop_step, Hr. reflexivity. }
    destruct (IH fuel envs w1) as (R1 & R2 & R3 & R4).
    + rewrite Hc. reflexivity.
    + rewrite Hc. simpl. lia.
    + rewrite Hc. reflexivity.
    + lia.
    + cbv zeta. unfold result, exec in *. rewrite Heq.
      split; [exact R1|]. split; [exact R2|]. split.
      * rewrite R3, Hh, rev_app_distr, <- app_assoc. reflexivity.
      * rewrite R4. exact Hm.
Qed.

(** X3: once the destructor has raised [shutdown] and signalled, the
    worker loop exits on its next pass without processing anything:
    requests still pending are abandoned. *)
Theorem worker_exits_after_shutdown :
  forall (fuel : nat) (envs : nat -> Env) (w : World),
    let ws := exec shutdown_worker w in
    createTextureTileTask hasExtension crc32 (S fuel) envs ws = (Exited, ws) /\
    tiles (m_texture_tile_creator ws) = tiles (m_texture_tile_creator w) /\
    semaphore (m_texture_tile_creator ws) = semaphore (m_texture_tile_creator w) + 1 /\
    trace ws = trace w.
Proof.
  intros fuel envs w ws. subst ws. rewrite worker_loop_step.
  explode w. run_cmd. repeat split; reflexivity.
Qed.

Lemma skipn_length_app :
  forall (A : Type) (l l' : list A), skipn (List.length l) (l ++ l') = l'.
Proof.
  intros A l l'. induction l as [|a l IH]; [reflexivity|exact IH].
Qed.

(** X5: a pass of the worker brings at most one file into being, at the
    cache path of the tile it took,
    [.lumix/asset_tiles/<crc32(tile)>.dds]: the compressed tile when the
    source decoded and [saveAsDDS] succeeded, the placeholder when the
    source did not decode and [copyFile] succeeded, and nothing
    otherwise. *)
Theorem worker_writes_only_its_cache_path :
  forall (env : Env) (w : World) (older : list string) (tile : string),
    worker_has w older tile ->
    let w' := exec (createTextureTileTask_iteration hasExtension crc32 env) w in
    trace w' = trace w ++ events_since w w' /\
    flat_map (written env) (events_since w w') =
      if decodes env tile
      then (if encode_fails env (tile_path (crc32 tile))
            then [] else [tile_path (crc32 tile)])
      else (if copyFile_ok env tile_texture_dds (tile_path (crc32 tile))
            then [tile_path (crc32 tile)] else []).
Proof.
  intros env w older tile H. unfold decodes, encode_fails, events_since.
  worker_case H w.
  destruct (hasExtension tile "dds"), (file_open env tile),
    (crn_decompress_ok env tile), (stbi_load_ok env tile),
    (crn_compress_ok env), (file_create env (tile_path (crc32 tile)));
    repeat (progress (cbn [andb orb negb]; run_cmd));
    rewrite <- ?app_assoc; rewrite skipn_length_app; simpl;
    (split; [reflexivity|]);
    destruct (copyFile_ok env tile_texture_dds (tile_path (crc32 tile)));
    reflexivity.
Qed.

(** *** Order and balance in the render pipeline *)

Lemma refill_cases :
  forall ps,
    (ps = [] /\ refill ps = []) \/
    (exists older newest, ps = older ++ [newest] /\ refill ps = [newest]).
Proof.
  intro ps. destruct (list_back_cases _ ps) as [H|(older & newest & H)]; subst.
  - left. auto.
  - right. exists older, newest. split; [reflexivity|].
    unfold refill. rewrite rev_app_distr. reflexivity.
Qed.

(** X10: a request whose resource failed to load is logged and dropped:
    it is not rendered, and the resource [pushTileQueue] loaded for it is
    not unloaded.  The freed slot goes to the newest overflowed request. *)
Theorem failed_load_is_dropped_without_unload :
  forall (env : Env) (w : World) (r : Resource) (q : list Resource),
    tile_inv (m_tile w) ->
    frame_countdown (m_tile w) < 0 ->
    isValid (m_entity_in_fly (m_tile w)) = false ->
    queue (m_tile w) = r :: q ->
    isFailure env r = true ->
    let w' := exec (update hasExtension Path_getHash env) w in
    trace w' = trace w ++ EvLogFailedToLoadResource (getPath r)
                 :: map (fun p => EvLoad (load hasExtension p)) (refill (paths (m_tile w))) /\
    queue (m_tile w') = q ++ map (load hasExtension) (refill (paths (m_tile w))) /\
    paths (m_tile w') = removelast (paths (m_tile w)) /\
    frame_countdown (m_tile w') = frame_countdown (m_tile w) /\
    m_entity_in_fly (m_tile w') = m_entity_in_fly (m_tile w).
Proof.
  intros env w r q Hinv Hc Hv Hq Hf w'.
  pose proof Hinv as (I1 & _).
  subst w'. unfold exec. rewrite (update_drops_failed env w r q) by assumption.
  destruct (refill_cases (paths (m_tile w))) as [(Hp & Hr)|(older & newest & Hp & Hr)];
    rewrite Hr.
  - rewrite popTileQueue_no_overflow by exact Hp. simpl.
    rewrite Hq, Hp, app_nil_r. simpl. auto.
  - rewrite (popTileQueue_overflow _ older newest) by (simpl; assumption). simpl.
    rewrite Hq, Hp, removelast_last, <- app_assoc. simpl. auto.
Qed.

Lemma createTile_fits :
  forall env in_path out_path type w,
    paths (m_tile w) = [] ->
    (List.length (queue (m_tile w)) + List.length (request_3d in_path type)
       <= Queue.capacity)%nat ->
    let w' := exec (createTile hasExtension env in_path out_path type) w in
    queue (m_tile w') = queue (m_tile w) ++ request_3d in_path type /\
    paths (m_tile w') = [].
Proof.
  intros env in_path out_path type w Hp Hlen.
  assert (H3d : type = Model_TYPE \/ type = PrefabResource_TYPE ->
                Queue.full (queue (m_tile w)) = false).
  { intros [H|H]; subst type; simpl in Hlen; unfold Queue.full, Queue.capacity in *;
      apply Nat.eqb_neq; lia. }
  cbv zeta. unfold exec.
  destruct type;
    [rewrite createTile_texture| | |
     rewrite (createTile_3d env in_path out_path Model_TYPE) by auto|
     rewrite (createTile_3d env in_path out_path PrefabResource_TYPE) by auto| ];
    try (rewrite H3d by auto; simpl; auto);
    try (simpl; rewrite app_nil_r; auto);
    explode w; run_cmd; simpl; rewrite app_nil_r; auto.
Qed.

Lemma submits_fit :
  forall reqs w,
    paths (m_tile w) = [] ->
    (List.length (queue (m_tile w)) + List.length (requests_3d reqs)
       <= Queue.capacity)%nat ->
    let w' := run hasExtension crc32 Path_getHash (map submit reqs) w in
    queue (m_tile w') = queue (m_tile w) ++ requests_3d reqs /\
    paths (m_tile w') = [].
Proof.
  induction reqs as [|[[[env i] o] ty] reqs IH]; intros w Hp Hlen.
  - simpl. rewrite app_nil_r. auto.
  - unfold requests_3d in *. simpl flat_map in *. rewrite length_app in Hlen.
    destruct (createTile_fits env i o ty w Hp) as (E1 & E2); [lia|].
    simpl map. simpl run.
    destruct (IH (exec (createTile hasExtension env i o ty) w) E2) as (Q1 & Q2).
    + rewrite E1, length_app. lia.
    + cbv zeta. unfold step. rewrite Q1, Q2, E1, app_assoc. auto.
Qed.

Lemma update_order :
  forall env w,
    tile_inv (m_tile w) ->
    paths (m_tile w) = [] ->
    let w' := exec (update hasExtension Path_getHash env) w in
    paths (m_tile w') = [] /\
    handled_requests_3d w' ++ queue (m_tile w') =
    handled_requests_3d w ++ queue (m_tile w).
Proof.
  intros env w Hinv Hp w'.
  pose proof Hinv as (I1 & I2 & I3 & I4 & I5).
  destruct (Z_lt_le_dec 0 (frame_countdown (m_tile w))) as [Hpos|Hle].
  { subst w'. unfold exec. rewrite update_draining by assumption. simpl. auto. }
  destruct (Z.eq_dec (frame_countdown (m_tile w)) 0) as [Hzero|Hnz].
  { subst w'. unfold exec. rewrite update_finalize by assumption.
    unfold saveAsDDS_events. destruct (encode_fails env _); trace_simpl; auto. }
  assert (Hneg : frame_countdown (m_tile w) < 0) by lia.
  destruct (isValid (m_entity_in_fly (m_tile w))) eqn:Hv.
  { subst w'. unfold exec. rewrite update_waiting_for_model by assumption. auto. }
  destruct (queue (m_tile w)) as [|r q] eqn:Hq.
  { subst w'. unfold exec. rewrite update_ring_empty by assumption. simpl.
    rewrite Hq. auto. }
  assert (Hr : r = load hasExtension (getPath r)) by (inversion I4; assumption).
  destruct (isFailure env r) eqn:Hfail.
  { subst w'. unfold exec. rewrite (update_drops_failed env w r q) by assumption.
    rewrite popTileQueue_no_overflow by exact Hp. trace_simpl.
    rewrite Hq, Hp, <- Hr, <- app_assoc. simpl. auto. }
  destruct (isReady env r) eqn:Hready.
  2:{ subst w'. unfold exec. rewrite (update_not_ready env w r q) by assumption.
      simpl. rewrite Hq. auto. }
  assert (Hw' : w' = exec (dispatch env r) (exec (popTileQueue hasExtension) w)).
  { subst w'. unfold exec at 1.
    rewrite (update_dispatches_ready env w r q) by assumption. reflexivity. }
  assert (Hty : getType r = Model_TYPE \/ getType r = PrefabResource_TYPE).
  { rewrite Hr. apply load_type. }
  destruct (dispatch_effect env r (exec (popTileQueue hasExtension) w) Hty)
    as (D1 & D2 & _ & D4 & _).
  rewrite Hw', D1, D2, D4. unfold exec at 1 2 3.
  rewrite popTileQueue_no_overflow by exact Hp. trace_simpl.
  rewrite Hq, Hp, <- app_assoc. simpl. auto.
Qed.

Lemma fair_run_order :
  forall sched w,
    tile_inv (m_tile w) ->
    paths (m_tile w) = [] ->
    let w' := fair_run sched w in
    handled_requests_3d w' ++ queue (m_tile w') =
    handled_requests_3d w ++ queue (m_tile w).
Proof.
  induction sched as [|[env model] sched IH]; intros w Hinv Hp; [reflexivity|].
  change (fair_run ((env, model) :: sched) w)
    with (fair_run sched (fair_round (env, model) w)).
  unfold fair_round, step in *. simpl fst in *. simpl snd in *.
  set (w1 := if isValid (m_entity_in_fly (m_tile w))
             then exec (renderPrefabSecondStage env model) w else w).
  assert (H1 : tile_inv (m_tile w1) /\ paths (m_tile w1) = [] /\
               handled_requests_3d w1 ++ queue (m_tile w1) =
               handled_requests_3d w ++ queue (m_tile w)).
  { subst w1. destruct (isValid (m_entity_in_fly (m_tile w))); [|auto].
    destruct (renderPrefabSecondStage_effect env model w Hinv)
      as (S1 & S2 & S3 & _ & S5 & _).
    rewrite S2, S3, S5. auto. }
  destruct H1 as (Hinv1 & Hp1 & Ho1).
  destruct (update_effect env w1 Hinv1) as (Hinv2 & _).
  destruct (update_order env w1 Hinv1 Hp1) as (Hp2 & Ho2).
  set (w2 := exec (update hasExtension Path_getHash env) w1) in *.
  destruct (worker_pass_frame env w2) as (T3 & H33 & _).
  set (w3 := exec (createTextureTileTask_iteration hasExtension crc32 env) w2) in *.
  cbv zeta. rewrite IH.
  - rewrite H33, T3, Ho2, Ho1. reflexivity.
  - rewrite T3. exact Hinv2.
  - rewrite T3. exact Hp2.
Qed.

(** X8: requests that fit in the ring are taken in the order they were
    submitted: when at most 8 Model/Prefab requests are submitted to a
    fresh plugin, a fair environment hands them to [renderTile] (or drops
    them for a failed load) first come, first served. *)
Theorem ring_requests_are_served_in_order :
  forall (reqs : list Request) (sched : list (Env * Resource)),
    Forall fair sched ->
    (List.length (requests_3d reqs) <= Queue.capacity)%nat ->
    (4 * List.length (requests_3d reqs) + List.length (requests_image reqs)
       <= List.length sched)%nat ->
    handled_requests_3d
      (fair_run sched
         (run hasExtension crc32 Path_getHash (map submit reqs) init_world)) =
    requests_3d reqs.
Proof.
  intros reqs sched Hfair Hfit Hlen.
  assert (Hwinit : worker_inv (m_texture_tile_creator init_world)).
  { unfold worker_inv. simpl. auto. }
  destruct (submits_effect reqs init_world init_tile_inv Hwinit)
    as (S1 & S2 & S3 & S4 & S5 & S6 & S7 & S8).
  destruct (submits_fit reqs init_world eq_refl Hfit) as (F1 & F2).
  set (w0 := run hasExtension crc32 Path_getHash (map submit reqs) init_world) in *.
  simpl in S3, S4, S5, S6, S7, S8, F1.
  assert (Hacc : accounted w0 (requests_3d reqs) (requests_image reqs)).
  { unfold accounted. rewrite S5, S6, S8. simpl. split; [exact S7|apply Permutation_refl]. }
  assert (Hwork : work_left w0 =
            (4 * List.length (requests_3d reqs) + List.length (requests_image reqs))%nat).
  { unfold work_left. rewrite work_3d_pending, S8.
    - rewrite (Permutation_length S7). reflexivity.
    - rewrite S4. reflexivity.
    - exact S3. }
  destruct (fair_run_effect sched w0 _ _ Hfair S1 S2 Hacc) as (_ & _ & _ & R5).
  pose proof (fair_run_order sched w0 S1 F2) as Ho. cbv zeta in Ho, R5.
  set (w := fair_run sched w0) in *.
  assert (Hzero : work_left w = 0%nat) by lia.
  unfold work_left, work_3d in Hzero.
  assert (Hq : queue (m_tile w) = []).
  { destruct (queue (m_tile w)); [reflexivity|simpl in Hzero; lia]. }
  rewrite Hq, app_nil_r, S5, F1 in Ho. exact Ho.
Qed.

(** X9: the whole life of one model tile.  On an idle plugin, [createTile]
    followed by four [update] calls loads the model, renders it on the
    first update, lets two frames pass, and on the fourth update writes
    the tile to the cache path of the model's hash and destroys the
    read-back texture, leaving the plugin idle again. *)
Theorem model_tile_is_written_on_fourth_update :
  forall (env0 e1 e2 e3 e4 : Env) (in_path out_path : string) (w : World),
    queue (m_tile w) = [] ->
    paths (m_tile w) = [] ->
    frame_countdown (m_tile w) < 0 ->
    isValid (m_entity_in_fly (m_tile w)) = false ->
    hasExtension in_path "fab" = false ->
    isFailure e1 (mkResource Model_TYPE in_path) = false ->
    isReady e1 (mkResource Model_TYPE in_path) = true ->
    has_render_scene e1 = true ->
    has_renderer e1 = true ->
    encode_fails e4 (tile_path (Path_getHash in_path)) = false ->
    let model := mkResource Model_TYPE in_path in
    let w' := run hasExtension crc32 Path_getHash
                [OpCreateTile env0 in_path out_path Model_TYPE;
                 OpUpdate e1; OpUpdate e2; OpUpdate e3; OpUpdate e4] w in
    trace w' = trace w ++
      [EvLoad model; EvRenderTile model;
       EvCreateEntity (createEntity e1);
       EvSetModelInstancePath (createEntity e1) in_path;
       EvSetCameraMatrix; EvPipelineRender;
       EvCreateTexture (createTexture2D e1);
       EvBlit (createTexture2D e1);
       EvReadTexture (createTexture2D e1);
       EvDestroyEntity (createEntity e1);
       EvUnload model;
       EvFileWrite (tile_path (Path_getHash in_path));
       EvDestroyTexture (createTexture2D e1)] /\
    m_tile w' = mkTileData (m_entity_in_fly (m_tile w)) (-1)
                  (Path_getHash in_path) (createTexture2D e1) [] [] /\
    m_texture_tile_creator w' = m_texture_tile_creator w.
Proof.
  intros env0 e1 e2 e3 e4 in_path out_path w Hq Hp Hc Hv Hext Hf Hr Hs Hn Henc
         model w'.
  assert (Hload : load hasExtension in_path = model).
  { unfold load. rewrite Hext. reflexivity. }
  subst w'. unfold run. cbn [fold_left]. unfold step.
  set (w1 := exec (createTile hasExtension env0 in_path out_path Model_TYPE) w).
  assert (E1 : w1 = with_tile (set_queue [model] (m_tile w))
                      (with_events [EvLoad model] w)).
  { subst w1. unfold exec.
    rewrite (createTile_3d env0 in_path out_path Model_TYPE w (or_introl eq_refl)).
    rewrite Hq, Hload. reflexivity. }
  set (w2 := exec (update hasExtension Path_getHash e1) w1).
  assert (E2 : w2 = with_tile
                 (set_path_hash (Path_getHash in_path)
                   (set_frame_countdown 2
                     (set_texture (createTexture2D e1)
                       (set_queue [] (m_tile w)))))
                 (with_events
                    [EvLoad model; EvRenderTile model;
                     EvCreateEntity (createEntity e1);
                     EvSetModelInstancePath (createEntity e1) in_path;
                     EvSetCameraMatrix; EvPipelineRender;
                     EvCreateTexture (createTexture2D e1);
                     EvBlit (createTexture2D e1);
                     EvReadTexture (createTexture2D e1);
                     EvDestroyEntity (createEntity e1);
                     EvUnload model] w)).
  { subst w2. unfold exec at 1.
    rewrite (update_dispatches_ready e1 w1 model []);
      try (rewrite E1; simpl; assumption); try (rewrite E1; reflexivity);
      try exact Hf; try exact Hr.
    unfold dispatch, exec. change (getType model) with Model_TYPE. cbv iota.
    rewrite popTileQueue_no_overflow by (rewrite E1; simpl; assumption).
    rewrite renderTile_Model_renders by assumption.
    rewrite E1. unfold_with. simpl. rewrite <- app_assoc. reflexivity. }
  clearbody w2. clear w1 E1.
  set (w3 := exec (update hasExtension Path_getHash e2) w2).
  assert (E3 : w3 = with_tile (set_frame_countdown 1 (m_tile w2)) w2).
  { subst w3. unfold exec. rewrite update_draining by (rewrite E2; simpl; lia).
    rewrite E2. reflexivity. }
  set (w4 := exec (update hasExtension Path_getHash e3) w3).
  assert (E4 : w4 = with_tile (set_frame_countdown 0 (m_tile w2)) w2).
  { subst w4. unfold exec. rewrite update_draining by (rewrite E3; simpl; lia).
    rewrite E3. reflexivity. }
  clearbody w4. clear w3 E3.
  unfold exec. rewrite update_finalize by (rewrite E4; reflexivity).
  rewrite E4, E2. unfold_with. unfold saveAsDDS_events. run_cmd.
  rewrite Henc. explode w. subst. rewrite <- !app_assoc. simpl. auto.
Qed.
End Verification.

(** ** Concrete checks *)

(** C1, counterexample: with ["a.msh"] overflowed before ["b.msh"], the
    slot freed by the next [update] goes to ["b.msh"], the newest; the
    head of the overflow array stays where it is. *)
Lemma overflow_refill_takes_newest_not_head :
  let w := ring_full_two_overflowed in
  let w' := run0 [OpUpdate env_ready] w in
  paths (m_tile w) = ["a.msh"; "b.msh"] /\
  queue (m_tile w') = tl (queue (m_tile w)) ++ [load ext_fab_dds "b.msh"] /\
  paths (m_tile w') = ["a.msh"] /\
  queue (m_tile w') <> tl (queue (m_tile w)) ++ [load ext_fab_dds "a.msh"].
Proof.
  vm_compute. repeat split. intro H. discriminate H.
Qed.

Lemma popTileQueue_takes_overflow_newest_first_witness :
  let w := ring_full_two_overflowed in
  let w' := Nat.iter 2 (exec (popTileQueue ext_fab_dds)) w in
  queue (m_tile w') =
    skipn 2 (queue (m_tile w) ++ map (load ext_fab_dds) (rev ["a.msh"; "b.msh"])) /\
  paths (m_tile w') = [] /\
  trace w' = trace w ++ map (fun p => EvLoad (load ext_fab_dds p)) (rev ["a.msh"; "b.msh"]).
Proof.
  apply (popTileQueue_takes_overflow_newest_first ext_fab_dds
           ["a.msh"; "b.msh"] [] ring_full_two_overflowed).
  - reflexivity.
  - vm_compute. split; repeat constructor.
Defined.

(** C2, counterexample: on the tick on which the countdown reaches 0
    (the second after the read-back) nothing is written; the tile is
    written one tick later, when the countdown reaches -1. *)
Lemma countdown_reaches_zero_without_finalize :
  let w := read_back_issued in
  let w2 := run0 [OpUpdate env_ready; OpUpdate env_ready] w in
  let w3 := run0 [OpUpdate env_ready] w2 in
  frame_countdown (m_tile w) = 2 /\
  frame_countdown (m_tile w2) = 0 /\
  trace w2 = trace w /\
  frame_countdown (m_tile w3) = -1 /\
  trace w3 = trace w ++ [EvFileWrite ".lumix/asset_tiles/5.dds"; EvDestroyTexture 3].
Proof. vm_compute. repeat split. Qed.

Lemma finalize_runs_on_third_update_witness :
  let w := read_back_issued in
  let w1 := exec (update ext_fab_dds stub_hash env_ready) w in
  let w2 := exec (update ext_fab_dds stub_hash env_ready) w1 in
  let w3 := exec (update ext_fab_dds stub_hash env_ready) w2 in
  w1 = with_tile (set_frame_countdown 1 (m_tile w)) w /\
  w2 = with_tile (set_frame_countdown 0 (m_tile w)) w /\
  w3 = with_tile (set_frame_countdown (-1) (m_tile w))
         (with_events (saveAsDDS_events env_ready (tile_path (path_hash (m_tile w)))
                       ++ [EvDestroyTexture (texture (m_tile w))]) w).
Proof.
  apply (finalize_runs_on_third_update ext_fab_dds stub_hash
           env_ready env_ready env_ready read_back_issued).
  reflexivity.
Defined.

Lemma env_ready_fair : fair (env_ready, mkResource Model_TYPE "m.msh").
Proof. repeat split. intro r. right. reflexivity. Defined.



(** C4, counterexample: with a failing compressor, finalize only destroys
    the texture, and the worker only logs; neither copies the placeholder
    to the cache path. *)
Lemma encode_failure_leaves_no_placeholder :
  let wf := run0 [OpUpdate env_encode_fails] countdown_at_zero in
  let ww := run0 [OpWorker env_encode_fails] one_image_pending in
  trace wf = trace countdown_at_zero ++ [EvDestroyTexture 3] /\
  filter (is_copy_to (tile_path (path_hash (m_tile countdown_at_zero)))) (trace wf) = [] /\
  trace ww = [EvStbiLoad "a.tga"; EvResize "a.tga";
              EvLogFailedToSave (tile_path (stub_hash "a.tga"))] /\
  filter (is_copy_to (tile_path (stub_hash "a.tga"))) (trace ww) = [].
Proof. vm_compute. repeat split. Qed.

Lemma encode_failure_substitutes_no_placeholder_witness :
  createTextureTileTask_iteration ext_fab_dds stub_hash env_encode_fails
    one_image_pending =
  (Continue,
   mkWorld (m_tile one_image_pending)
     (mkTextureTileCreator false
        (semaphore (m_texture_tile_creator one_image_pending) - 1) [])
     (trace one_image_pending ++
        [opens ext_fab_dds "a.tga"; EvResize "a.tga";
         EvLogFailedToSave (tile_path (stub_hash "a.tga"))])) /\
  update ext_fab_dds stub_hash env_encode_fails countdown_at_zero =
  (tt, with_tile (set_frame_countdown (-1) (m_tile countdown_at_zero))
         (with_events [EvDestroyTexture (texture (m_tile countdown_at_zero))]
                      countdown_at_zero)).
Proof.
  apply (encode_failure_substitutes_no_placeholder ext_fab_dds stub_hash stub_hash
           env_encode_fails env_encode_fails one_image_pending countdown_at_zero
           [] "a.tga").
  - repeat split.
  - reflexivity.
  - reflexivity.
  - reflexivity.
  - reflexivity.
Defined.

Lemma worker_dds_decompress_failure_is_not_logged_witness :
  createTextureTileTask_iteration ext_fab_dds stub_hash env_decompress_fails
    two_images_pending =
  (Continue,
   mkWorld (m_tile two_images_pending)
     (mkTextureTileCreator false
        (semaphore (m_texture_tile_creator two_images_pending) - 1) ["old.tga"])
     (trace two_images_pending ++
        [EvFileOpenRead "new.dds";
         EvCopyFile tile_texture_dds (tile_path (stub_hash "new.dds"))])).
Proof.
  apply (worker_dds_decompress_failure_is_not_logged ext_fab_dds stub_hash
           env_decompress_fails two_images_pending ["old.tga"] "new.dds").
  - repeat split.
  - reflexivity.
  - reflexivity.
  - reflexivity.
Defined.



Lemma worker_takes_most_recent_request_witness :
  let w2 := exec (createTile ext_fab_dds env_ready "new.dds" "" Texture_TYPE)
                 (exec (createTile ext_fab_dds env_ready "old.tga" "" Texture_TYPE)
                       init_world) in
  let w3 := exec (createTextureTileTask_iteration ext_fab_dds stub_hash env_ready) w2 in
  result (createTextureTileTask_iteration ext_fab_dds stub_hash env_ready) w2 = Continue /\
  tiles (m_texture_tile_creator w3) =
    tiles (m_texture_tile_creator init_world) ++ ["old.tga"] /\
  exists rest, trace w3 = trace init_world ++ opens ext_fab_dds "new.dds" :: rest.
Proof.
  apply (worker_takes_most_recent_request ext_fab_dds stub_hash
           env_ready env_ready env_ready "old.tga" "" "new.dds" "" init_world).
  - reflexivity.
  - simpl. lia.
Defined.

(** ** Flipping a cubemap face *)

Section FlipFacts.

Import Buffer EnvironmentProbePlugin.

Lemma int_ok :
  forall z, INT_MIN <= z <= INT_MAX -> int z = Some z.
Proof.
  intros z H. unfold int.
  destruct (Z.leb_spec INT_MIN z); [|lia].
  destruct (Z.leb_spec z INT_MAX); [|lia]. reflexivity.
Qed.

Lemma read_ok :
  forall data k,
    0 <= k < Z.of_nat (List.length data) ->
    read data k = Some (nth (Z.to_nat k) data 0).
Proof.
  intros data k H. unfold read.
  destruct (Z.ltb_spec k 0); [lia|].
  apply nth_error_nth'. lia.
Qed.

Lemma set_nth_ok :
  forall data n v,
    (n < List.length data)%nat ->
    exists data',
      set_nth data n v = Some data' /\
      List.length data' = List.length data /\
      forall m, nth m data' 0 = if Nat.eqb m n then v else nth m data 0.
Proof.
  induction data as [|d rest IH]; intros n v Hn; simpl in Hn; [lia|].
  destruct n as [|k].
  - exists (v :: rest). repeat split. intros [|m]; reflexivity.
  - destruct (IH k v) as (rest' & E & L & N); [lia|].
    exists (d :: rest'). simpl. rewrite E. simpl. repeat split.
    + congruence.
    + intros [|m]; [reflexivity|]. simpl. apply N.
Qed.

Lemma write_ok :
  forall data k v,
    0 <= k < Z.of_nat (List.length data) ->
    exists data',
      write data k v = Some data' /\
      List.length data' = List.length data /\
      forall m, 0 <= m ->
        nth (Z.to_nat m) data' 0 = if m =? k then v else nth (Z.to_nat m) data 0.
Proof.
  intros data k v H. unfold write.
  destruct (Z.ltb_spec k 0); [lia|].
  destruct (set_nth_ok data (Z.to_nat k) v) as (data' & E & L & N); [lia|].
  exists data'. repeat split; [exact E|exact L|].
  intros m Hm. rewrite N.
  destruct (Z.eqb_spec m k) as [->|Hne].
  - rewrite Nat.eqb_refl. reflexivity.
  - destruct (Nat.eqb_spec (Z.to_nat m) (Z.to_nat k)); [lia|reflexivity].
Qed.

Lemma swap_ok :
  forall data i j,
    0 <= i < Z.of_nat (List.length data) ->
    0 <= j < Z.of_nat (List.length data) ->
    exists data',
      swap data i j = Some data' /\
      List.length data' = List.length data /\
      forall m, 0 <= m ->
        nth (Z.to_nat m) data' 0 =
        if m =? j then nth (Z.to_nat i) data 0
        else if m =? i then nth (Z.to_nat j) data 0
        else nth (Z.to_nat m) data 0.
Proof.
  intros data i j Hi Hj. unfold swap.
  rewrite (read_ok data i Hi), (read_ok data j Hj). simpl.
  destruct (write_ok data i (nth (Z.to_nat j) data 0) Hi) as (d1 & E1 & L1 & N1).
  rewrite E1. simpl.
  destruct (write_ok d1 j (nth (Z.to_nat i) data 0)) as (d2 & E2 & L2 & N2);
    [lia|].
  exists d2. repeat split; [exact E2|congruence|].
  intros m Hm. rewrite N2 by exact Hm.
  destruct (m =? j); [reflexivity|]. apply N1. exact Hm.
Qed.

Lemma for_loop_inv :
  forall (S : Type) (Inv : Z -> S -> Prop) (body : Z -> S -> option S)
         (count : nat) (i : Z) (s : S),
    Inv i s ->
    (forall j s0, i <= j < i + Z.of_nat count -> Inv j s0 ->
       exists s', body j s0 = Some s' /\ Inv (j + 1) s') ->
    exists s', for_loop count i body s = Some s' /\ Inv (i + Z.of_nat count) s'.
Proof.
  intros S Inv body. induction count as [|count IH]; intros i s H0 Hstep.
  - exists s. simpl. rewrite Z.add_0_r. auto.
  - destruct (Hstep i s) as (s1 & E & I1); [lia|exact H0|].
    destruct (IH (i + 1) s1 I1) as (s' & E' & I').
    { intros j s0 Hj. apply Hstep. lia. }
    exists s'.
    replace (i + Z.of_nat (Datatypes.S count)) with (i + 1 + Z.of_nat count) by lia.
    cbn [for_loop]. rewrite E. split; [exact E'|exact I'].
Qed.

Lemma for_up_to_inv :
  forall (S : Type) (Inv : Z -> S -> Prop) (body : Z -> S -> option S)
         (bound : Z) (s : S),
    0 <= bound ->
    Inv 0 s ->
    (forall j s0, 0 <= j < bound -> Inv j s0 ->
       exists s', body j s0 = Some s' /\ Inv (j + 1) s') ->
    exists s', for_up_to bound body s = Some s' /\ Inv bound s'.
Proof.
  intros S Inv body bound s Hb H0 Hstep. unfold for_up_to.
  destruct (for_loop_inv S Inv body (Z.to_nat bound) 0 s H0) as (s' & E & I).
  - intros j s0 Hj. apply Hstep. lia.
  - exists s'. split; [exact E|].
    replace bound with (0 + Z.of_nat (Z.to_nat bound)) at 1 by lia. exact I.
Qed.

Lemma index_inj :
  forall ts x1 y1 x2 y2,
    0 <= x1 < ts -> 0 <= x2 < ts ->
    x1 + y1 * ts = x2 + y2 * ts ->
    x1 = x2 /\ y1 = y2.
Proof.
  intros ts x1 y1 x2 y2 H1 H2 E.
  assert (y1 = y2) by nia. subst. lia.
Qed.

Lemma index_in_face :
  forall ts x y,
    0 <= x < ts -> 0 <= y < ts ->
    0 <= y * ts /\ 0 <= x + y * ts < ts * ts.
Proof.
  intros ts x y Hx Hy. nia.
Qed.

Ltac flip_cases :=
  repeat match goal with
         | |- context [?a =? ?b] => destruct (Z.eqb_spec a b)
         | |- context [?a <? ?b] => destruct (Z.ltb_spec a b)
         | |- context [?a <=? ?b] => destruct (Z.leb_spec a b)
         end;
  cbn [andb orb]; try reflexivity; try lia; try (f_equal; lia).

Lemma swap_pixels :
  forall data ts x1 y1 x2 y2,
    face data ts ->
    0 <= x1 < ts -> 0 <= y1 < ts ->
    0 <= x2 < ts -> 0 <= y2 < ts ->
    exists data',
      swap data (x1 + y1 * ts) (x2 + y2 * ts) = Some data' /\
      face data' ts /\
      forall x y, 0 <= x < ts -> 0 <= y < ts ->
        pixel data' ts x y =
        if (x =? x2) && (y =? y2) then pixel data ts x1 y1
        else if (x =? x1) && (y =? y1) then pixel data ts x2 y2
        else pixel data ts x y.
Proof.
  intros data ts x1 y1 x2 y2 (F1 & F2 & F3) Hx1 Hy1 Hx2 Hy2.
  pose proof (index_in_face ts x1 y1 Hx1 Hy1) as (_ & B1).
  pose proof (index_in_face ts x2 y2 Hx2 Hy2) as (_ & B2).
  destruct (swap_ok data (x1 + y1 * ts) (x2 + y2 * ts)) as (data' & E & L & N);
    [lia|lia|].
  exists data'. split; [exact E|]. split.
  { unfold face. rewrite L. auto. }
  intros x y Hx Hy. unfold pixel.
  pose proof (index_in_face ts x y Hx Hy) as (_ & B).
  rewrite N by lia.
  destruct (Z.eqb_spec (x + y * ts) (x2 + y2 * ts)) as [Ej|Nj].
  - apply index_inj in Ej; [|lia|lia]. destruct Ej as (-> & ->).
    rewrite !Z.eqb_refl. reflexivity.
  - assert (Hj : (x =? x2) && (y =? y2) = false).
    { destruct (Z.eqb_spec x x2); [|reflexivity].
      destruct (Z.eqb_spec y y2); [|reflexivity]. subst. lia. }
    rewrite Hj.
    destruct (Z.eqb_spec (x + y * ts) (x1 + y1 * ts)) as [Ei|Ni].
    + apply index_inj in Ei; [|lia|lia]. destruct Ei as (-> & ->).
      rewrite !Z.eqb_refl. reflexivity.
    + assert (Hi : (x =? x1) && (y =? y1) = false).
      { destruct (Z.eqb_spec x x1); [|reflexivity].
        destruct (Z.eqb_spec y y1); [|reflexivity]. subst. lia. }
      rewrite Hi. reflexivity.
Qed.

Lemma at_xy_ok :
  forall ts x y,
    ts * ts <= INT_MAX ->
    0 <= x < ts -> 0 <= y < ts ->
    at_xy ts x y = Some (x + y * ts).
Proof.
  intros ts x y Hts Hx Hy. unfold at_xy.
  pose proof (index_in_face ts x y Hx Hy) as (B0 & B).
  unfold INT_MAX in Hts.
  rewrite int_ok by (unfold INT_MIN, INT_MAX; nia). simpl.
  apply int_ok. unfold INT_MIN, INT_MAX. lia.
Qed.

Lemma at_x_mirror_y_ok :
  forall ts x y,
    ts * ts <= INT_MAX ->
    0 <= x < ts -> 0 <= y < ts ->
    at_x_mirror_y ts x y = Some (x + (ts - 1 - y) * ts).
Proof.
  intros ts x y Hts Hx Hy. unfold at_x_mirror_y.
  assert (Hlt : ts <= INT_MAX) by nia. unfold INT_MAX in Hlt.
  rewrite int_ok by (unfold INT_MIN, INT_MAX; lia). simpl.
  rewrite int_ok by (unfold INT_MIN, INT_MAX; lia). simpl.
  replace (ts - y - 1) with (ts - 1 - y) by lia.
  apply at_xy_ok; [exact Hts|exact Hx|lia].
Qed.

Lemma in_row_ok :
  forall ts x y,
    ts * ts <= INT_MAX ->
    0 <= x < ts -> 0 <= y < ts ->
    in_row ts y x = Some (x + y * ts).
Proof.
  intros ts x y Hts Hx Hy. unfold in_row.
  pose proof (index_in_face ts x y Hx Hy) as (B0 & B).
  unfold INT_MAX in Hts.
  rewrite int_ok by (unfold INT_MIN, INT_MAX; nia). simpl.
  rewrite Z.add_comm. apply int_ok. unfold INT_MIN, INT_MAX. lia.
Qed.

Lemma half_ok :
  forall ts,
    0 <= ts -> ts * ts <= INT_MAX ->
    int (Z.quot ts 2) = Some (ts / 2) /\
    0 <= ts / 2 /\ 2 * (ts / 2) <= ts < 2 * (ts / 2) + 2.
Proof.
  intros ts H0 Hts.
  rewrite Z.quot_div_nonneg by lia.
  assert (Hlt : ts <= INT_MAX) by nia. unfold INT_MAX in Hlt.
  assert (Hh : 0 <= ts / 2 /\ 2 * (ts / 2) <= ts < 2 * (ts / 2) + 2).
  { pose proof (Z.div_mod ts 2 ltac:(lia)).
    pose proof (Z.mod_pos_bound ts 2 ltac:(lia)). lia. }
  split; [|exact Hh].
  apply int_ok. unfold INT_MIN, INT_MAX. lia.
Qed.

(** One row of [flipY]: rows [y] and [texture_size - 1 - y] change places. *)
Lemma flipY_row :
  forall data ts y,
    face data ts ->
    0 <= y -> 2 * y + 1 < ts ->
    exists data',
      for_up_to ts (fun x data =>
        and_then (at_xy ts x y) (fun i =>
        and_then (at_x_mirror_y ts x y) (fun j =>
        swap data i j))) data = Some data' /\
      face data' ts /\
      forall x' y', 0 <= x' < ts -> 0 <= y' < ts ->
        pixel data' ts x' y' =
        if (y' =? y) || (y' =? ts - 1 - y)
        then pixel data ts x' (ts - 1 - y') else pixel data ts x' y'.
Proof.
  intros data ts y F Hy0 Hy.
  pose proof F as (F1 & F2 & F3).
  destruct (for_up_to_inv (list Z)
    (fun c d =>
       face d ts /\
       forall x' y', 0 <= x' < ts -> 0 <= y' < ts ->
         pixel d ts x' y' =
         if (x' <? c) && ((y' =? y) || (y' =? ts - 1 - y))
         then pixel data ts x' (ts - 1 - y') else pixel data ts x' y')
    (fun x data =>
        and_then (at_xy ts x y) (fun i =>
        and_then (at_x_mirror_y ts x y) (fun j =>
        swap data i j))) ts data F1) as (data' & E & F' & P').
  - split; [exact F|]. intros x' y' Hx' Hy'.
    destruct (Z.ltb_spec x' 0); [lia|reflexivity].
  - intros c d Hc (Fd & Pd).
    rewrite at_xy_ok, at_x_mirror_y_ok by lia. simpl.
    destruct (swap_pixels d ts c y c (ts - 1 - y) Fd) as (d' & Es & Fs & Ps);
      try lia.
    exists d'. split; [exact Es|]. split; [exact Fs|].
    intros x' y' Hx' Hy'. rewrite Ps by lia. rewrite !Pd by lia.
    flip_cases.
  - exists data'. split; [exact E|]. split; [exact F'|].
    intros x' y' Hx' Hy'. rewrite P' by lia.
    destruct (Z.ltb_spec x' ts); [reflexivity|lia].
Qed.

(** One row of [flipX]: the row is reversed. *)
Lemma flipX_row :
  forall data ts y,
    face data ts ->
    0 <= y < ts ->
    exists data',
      and_then (int (Z.quot ts 2)) (fun half =>
      for_up_to half (fun x data =>
        and_then (in_row ts y x) (fun i =>
        and_then (int (ts - x)) (fun a =>
        and_then (int (a - 1)) (fun b =>
        and_then (in_row ts y b) (fun j =>
        swap data i j))))) data) = Some data' /\
      face data' ts /\
      forall x' y', 0 <= x' < ts -> 0 <= y' < ts ->
        pixel data' ts x' y' =
        if y' =? y then pixel data ts (ts - 1 - x') y' else pixel data ts x' y'.
Proof.
  intros data ts y F Hy.
  pose proof F as (F1 & F2 & F3).
  destruct (half_ok ts F1 F2) as (Eh & H0 & H2).
  assert (Hlt : ts <= INT_MAX) by nia. unfold INT_MAX in Hlt.
  rewrite Eh. simpl.
  destruct (for_up_to_inv (list Z)
    (fun c d =>
       face d ts /\
       forall x' y', 0 <= x' < ts -> 0 <= y' < ts ->
         pixel d ts x' y' =
         if (y' =? y) && ((x' <? c) || (ts - c <=? x'))
         then pixel data ts (ts - 1 - x') y' else pixel data ts x' y')
    (fun x data =>
        and_then (in_row ts y x) (fun i =>
        and_then (int (ts - x)) (fun a =>
        and_then (int (a - 1)) (fun b =>
        and_then (in_row ts y b) (fun j =>
        swap data i j))))) (ts / 2) data H0) as (data' & E & F' & P').
  - split; [exact F|]. intros x' y' Hx' Hy'. flip_cases.
  - intros c d Hc (Fd & Pd).
    rewrite in_row_ok by lia. simpl.
    rewrite int_ok by (unfold INT_MIN, INT_MAX; lia). simpl.
    rewrite int_ok by (unfold INT_MIN, INT_MAX; lia). simpl.
    rewrite in_row_ok by lia. simpl.
    destruct (swap_pixels d ts c y (ts - c - 1) y Fd) as (d' & Es & Fs & Ps);
      try lia.
    exists d'. split; [exact Es|]. split; [exact Fs|].
    intros x' y' Hx' Hy'. rewrite Ps by lia. rewrite !Pd by lia.
    flip_cases.
  - exists data'. split; [exact E|]. split; [exact F'|].
    intros x' y' Hx' Hy'. rewrite P' by lia. flip_cases.
Qed.

Lemma face_ext :
  forall data data' ts,
    face data ts -> face data' ts ->
    (forall x y, 0 <= x < ts -> 0 <= y < ts ->
       pixel data' ts x y = pixel data ts x y) ->
    data' = data.
Proof.
  intros data data' ts (F1 & F2 & F3) (G1 & G2 & G3) H.
  apply (nth_ext data' data 0 0); [lia|].
  intros n Hn.
  assert (Hpos : 0 < ts) by nia.
  pose proof (Z.div_mod (Z.of_nat n) ts ltac:(lia)) as Hdm.
  pose proof (Z.mod_pos_bound (Z.of_nat n) ts Hpos) as Hm.
  assert (Hd : 0 <= Z.of_nat n / ts < ts).
  { split; [apply Z.div_pos; lia|apply Z.div_lt_upper_bound; lia]. }
  specialize (H (Z.of_nat n mod ts) (Z.of_nat n / ts) Hm Hd).
  unfold pixel in H.
  replace (Z.of_nat n mod ts + Z.of_nat n / ts * ts) with (Z.of_nat n) in H by lia.
  rewrite Nat2Z.id in H. exact H.
Qed.

Lemma flipY_row_all :
  forall (data : list Z) (texture_size : Z),
    face data texture_size ->
    exists flipped,
      flipY data texture_size = Some flipped /\
      face flipped texture_size /\
      forall x y, 0 <= x < texture_size -> 0 <= y < texture_size ->
        pixel flipped texture_size x y =
        pixel data texture_size x (texture_size - 1 - y).
Proof.
  intros data ts F. pose proof F as (F1 & F2 & F3).
  destruct (half_ok ts F1 F2) as (Eh & H0 & H2).
  unfold flipY. rewrite Eh. simpl.
  destruct (for_up_to_inv (list Z)
    (fun r d =>
       face d ts /\
       forall x' y', 0 <= x' < ts -> 0 <= y' < ts ->
         pixel d ts x' y' =
         if (y' <? r) || (ts - r <=? y')
         then pixel data ts x' (ts - 1 - y') else pixel data ts x' y')
    (fun y data =>
       for_up_to ts (fun x data =>
         and_then (at_xy ts x y) (fun i =>
         and_then (at_x_mirror_y ts x y) (fun j =>
         swap data i j))) data) (ts / 2) data H0) as (data' & E & F' & P').
  - split; [exact F|]. intros x' y' Hx' Hy'. flip_cases.
  - intros r d Hr (Fd & Pd).
    destruct (flipY_row d ts r Fd) as (d' & Er & Fr & Pr); try lia.
    exists d'. split; [exact Er|]. split; [exact Fr|].
    intros x' y' Hx' Hy'. rewrite Pr by lia. rewrite !Pd by lia.
    flip_cases.
  - exists data'. split; [exact E|]. split; [exact F'|].
    intros x y Hx Hy. rewrite P' by lia. flip_cases.
Qed.

Lemma flipX_col_all :
  forall (data : list Z) (texture_size : Z),
    face data texture_size ->
    exists flipped,
      flipX data texture_size = Some flipped /\
      face flipped texture_size /\
      forall x y, 0 <= x < texture_size -> 0 <= y < texture_size ->
        pixel flipped texture_size x y =
        pixel data texture_size (texture_size - 1 - x) y.
Proof.
  intros data ts F. pose proof F as (F1 & F2 & F3).
  unfold flipX.
  destruct (for_up_to_inv (list Z)
    (fun r d =>
       face d ts /\
       forall x' y', 0 <= x' < ts -> 0 <= y' < ts ->
         pixel d ts x' y' =
         if y' <? r then pixel data ts (ts - 1 - x') y' else pixel data ts x' y')
    (fun y data =>
       and_then (int (Z.quot ts 2)) (fun half =>
       for_up_to half (fun x data =>
         and_then (in_row ts y x) (fun i =>
         and_then (int (ts - x)) (fun a =>
         and_then (int (a - 1)) (fun b =>
         and_then (in_row ts y b) (fun j =>
         swap data i j))))) data)) ts data F1) as (data' & E & F' & P').
  - split; [exact F|]. intros x' y' Hx' Hy'. flip_cases.
  - intros r d Hr (Fd & Pd).
    destruct (flipX_row d ts r Fd Hr) as (d' & Er & Fr & Pr).
    exists d'. split; [exact Er|]. split; [exact Fr|].
    intros x' y' Hx' Hy'. rewrite Pr by lia. rewrite !Pd by lia.
    flip_cases.
  - exists data'. split; [exact E|]. split; [exact F'|].
    intros x y Hx Hy. rewrite P' by lia. flip_cases.
Qed.

(** X11: on a buffer holding one face, [flipY] stays inside the buffer and
    turns the face upside down: row [y] of the result is row
    [texture_size - 1 - y] of the input, column by column. *)
Theorem flipY_mirrors_rows :
  forall (data : list Z) (texture_size : Z),
    face data texture_size ->
    exists flipped,
      flipY data texture_size = Some flipped /\
      face flipped texture_size /\
      forall x y, 0 <= x < texture_size -> 0 <= y < texture_size ->
        pixel flipped texture_size x y =
        pixel data texture_size x (texture_size - 1 - y).
Proof.
  exact flipY_row_all.
Qed.

(** X12: on a buffer holding one face, [flipX] stays inside the buffer and
    mirrors the face left to right: column [x] of the result is column
    [texture_size - 1 - x] of the input, row by row. *)
Theorem flipX_mirrors_columns :
  forall (data : list Z) (texture_size : Z),
    face data texture_size ->
    exists flipped,
      flipX data texture_size = Some flipped /\
      face flipped texture_size /\
      forall x y, 0 <= x < texture_size -> 0 <= y < texture_size ->
        pixel flipped texture_size x y =
        pixel data texture_size (texture_size - 1 - x) y.
Proof.
  exact flipX_col_all.
Qed.

(** X13: flipping a face upside down twice gives the face back. *)
Theorem flipY_twice_is_identity :
  forall (data : list Z) (texture_size : Z),
    face data texture_size ->
    and_then (flipY data texture_size) (fun flipped => flipY flipped texture_size)
    = Some data.
Proof.
  intros data ts F.
  destruct (flipY_row_all data ts F) as (d1 & E1 & F1 & P1).
  destruct (flipY_row_all d1 ts F1) as (d2 & E2 & F2 & P2).
  rewrite E1. simpl. rewrite E2. f_equal.
  apply (face_ext data d2 ts F F2).
  intros x y Hx Hy. rewrite P2, P1 by lia. f_equal. lia.
Qed.

(** X14: mirroring a face left to right twice gives the face back. *)
Theorem flipX_twice_is_identity :
  forall (data : list Z) (texture_size : Z),
    face data texture_size ->
    and_then (flipX data texture_size) (fun flipped => flipX flipped texture_size)
    = Some data.
Proof.
  intros data ts F.
  destruct (flipX_col_all data ts F) as (d1 & E1 & F1 & P1).
  destruct (flipX_col_all d1 ts F1) as (d2 & E2 & F2 & P2).
  rewrite E1. simpl. rewrite E2. f_equal.
  apply (face_ext data d2 ts F F2).
  intros x y Hx Hy. rewrite P2, P1 by lia. f_equal. lia.
Qed.

End FlipFacts.

(** ** Rasterising a triangle into the coverage mask *)

Section RasterFacts.

Import Buffer FurPainter.

Lemma wrap64_id :
  forall z,
    - 9223372036854775808 <= z < 9223372036854775808 -> wrap64 z = z.
Proof.
  intros z H. unfold wrap64. rewrite Z.mod_small by lia. lia.
Qed.

Lemma mul_small :
  forall A B u v,
    - A <= u <= A -> - B <= v <= B -> - (A * B) <= u * v <= A * B.
Proof.
  intros A B u v Hu Hv. nia.
Qed.

Lemma orient2D_exact :
  forall a b c,
    small a -> small b -> near c ->
    orient2D a b c = (x b - x a) * (y c - y a) - (y b - y a) * (x c - x a).
Proof.
  intros a b c (A1 & A2) (B1 & B2) (C1 & C2). unfold orient2D.
  pose proof (mul_small 1073741824 2147483648 (x b - x a) (y c - y a)
                ltac:(lia) ltac:(lia)) as M1.
  pose proof (mul_small 1073741824 2147483648 (y b - y a) (x c - x a)
                ltac:(lia) ltac:(lia)) as M2.
  rewrite (wrap64_id (x b - x a)) by lia.
  rewrite (wrap64_id (y c - y a)) by lia.
  rewrite (wrap64_id (y b - y a)) by lia.
  rewrite (wrap64_id (x c - x a)) by lia.
  rewrite (wrap64_id ((x b - x a) * (y c - y a))) by lia.
  rewrite (wrap64_id ((y b - y a) * (x c - x a))) by lia.
  apply wrap64_id. lia.
Qed.

Lemma small_near :
  forall v, small v -> near v.
Proof.
  intros v (H1 & H2). unfold near. lia.
Qed.

Lemma edge_functions_sum :
  forall v0 v1 v2 p,
    small v0 -> small v1 -> small v2 -> near p ->
    orient2D v1 v2 p + orient2D v2 v0 p + orient2D v0 v1 p = orient2D v0 v1 v2.
Proof.
  intros v0 v1 v2 p S0 S1 S2 Np.
  rewrite !orient2D_exact by auto using small_near. ring.
Qed.

Lemma edge_functions_weigh :
  forall v0 v1 v2 p,
    small v0 -> small v1 -> small v2 -> near p ->
    orient2D v0 v1 v2 * x p =
      orient2D v1 v2 p * x v0 + orient2D v2 v0 p * x v1 + orient2D v0 v1 p * x v2 /\
    orient2D v0 v1 v2 * y p =
      orient2D v1 v2 p * y v0 + orient2D v2 v0 p * y v1 + orient2D v0 v1 p * y v2.
Proof.
  intros v0 v1 v2 p S0 S1 S2 Np.
  rewrite !orient2D_exact by auto using small_near. split; ring.
Qed.

Lemma land_lnot_submask :
  forall z, Z.land z (Z.lnot submask) = 256 * (z / 256).
Proof.
  intro z. change submask with (Z.ones 8).
  rewrite <- Z.ldiff_land, Z.ldiff_ones_r by lia.
  rewrite Z.shiftl_mul_pow2, Z.shiftr_div_pow2 by lia.
  change (2 ^ 8) with 256. lia.
Qed.

Lemma first_sample_bounds :
  forall m,
    - 536870912 <= m <= 536870912 ->
    m - 1 <= wrap64 (Z.land (wrap64 (m + submask)) (Z.lnot submask) - 1) <= m + 254.
Proof.
  intros m Hm. change (m + submask) with (m + 255).
  rewrite (wrap64_id (m + 255)) by lia.
  rewrite land_lnot_submask.
  pose proof (Z.div_mod (m + 255) 256 ltac:(lia)) as Hdm.
  pose proof (Z.mod_pos_bound (m + 255) 256 ltac:(lia)) as Hmod.
  set (q := (m + 255) / 256) in *. set (r := (m + 255) mod 256) in *.
  rewrite wrap64_id by lia. lia.
Qed.

Lemma for_le_inv :
  forall (S : Type) (Inv : S -> Prop) (body : Z -> S -> option S) (from to : Z)
         (fuel : nat) (p : Z) (s : S),
    Inv s ->
    - 9223372036854775808 <= from <= p ->
    to + substep < 9223372036854775808 ->
    0 < Z.of_nat fuel ->
    to - p + 1 < Z.of_nat fuel ->
    (forall q s0, from <= q <= to -> Inv s0 ->
       exists s', body q s0 = Some s' /\ Inv s') ->
    exists s', for_le fuel p to body s = Some s' /\ Inv s'.
Proof.
  intros S Inv body from to. induction fuel as [|fuel IH];
    intros p s H0 Hp Hto Hpos Hfuel Hbody; [simpl in Hpos; lia|].
  cbn [for_le]. destruct (Z.leb_spec p to) as [Hle|Hgt].
  - destruct (Hbody p s) as (s1 & E1 & I1); [lia|exact H0|].
    rewrite E1. cbn [and_then].
    unfold substep in *. rewrite wrap64_id by lia.
    apply IH; [exact I1|lia|exact Hto|lia|lia|exact Hbody].
  - exists s. auto.
Qed.

Lemma rounds_enough :
  forall from to,
    0 < Z.of_nat (rounds from to) /\ to - from + 1 < Z.of_nat (rounds from to).
Proof.
  intros from to. unfold rounds. lia.
Qed.

Lemma extent_small :
  forall a b c,
    - 536870912 <= a <= 536870912 ->
    - 536870912 <= b <= 536870912 ->
    - 536870912 <= c <= 536870912 ->
    - 536870912 <= minimum a b c <= 536870912 /\
    - 536870912 <= maximum a b c <= 536870912 /\
    minimum a b c <= maximum a b c.
Proof.
  intros a b c Ha Hb Hc. unfold minimum, maximum. lia.
Qed.

(** Whatever holds of the mask and survives marking an accepted sample
    holds of the mask [rasterizeTriangle2] returns. *)
Lemma rasterizeTriangle2_inv :
  forall (Inv : list Z -> Prop) width mem v0 v1 v2,
    small v0 -> small v1 -> small v2 ->
    Inv mem ->
    (forall px py d,
       Inv d -> near (mkPoint px py) ->
       0 <= orient2D v1 v2 (mkPoint px py) ->
       0 <= orient2D v2 v0 (mkPoint px py) ->
       0 <= orient2D v0 v1 (mkPoint px py) ->
       exists d',
         write d (wrap64 (Z.shiftr px stepshift
                          + wrap64 (Z.shiftr py stepshift * width))) 1 = Some d' /\
         Inv d') ->
    exists mem', rasterizeTriangle2 width mem v0 v1 v2 = Some mem' /\ Inv mem'.
Proof.
  intros Inv width mem v0 v1 v2 S0 S1 S2 H0 Hmark.
  pose proof S0 as (X0 & Y0). pose proof S1 as (X1 & Y1). pose proof S2 as (X2 & Y2).
  destruct (extent_small _ _ _ X0 X1 X2) as (MX1 & MX2 & MX3).
  destruct (extent_small _ _ _ Y0 Y1 Y2) as (MY1 & MY2 & MY3).
  pose proof (first_sample_bounds _ MX1) as LX.
  pose proof (first_sample_bounds _ MY1) as LY.
  unfold rasterizeTriangle2. cbv zeta.
  set (lx := wrap64 (Z.land (wrap64 (minimum (x v0) (x v1) (x v2) + submask))
                            (Z.lnot submask) - 1)) in *.
  set (ly := wrap64 (Z.land (wrap64 (minimum (y v0) (y v1) (y v2) + submask))
                            (Z.lnot submask) - 1)) in *.
  rewrite (wrap64_id (maximum (x v0) (x v1) (x v2) + substep))
    by (unfold substep; lia).
  rewrite (wrap64_id (maximum (y v0) (y v1) (y v2) + substep))
    by (unfold substep; lia).
  assert (HX : maximum (x v0) (x v1) (x v2) + substep =
               maximum (x v0) (x v1) (x v2) + 256) by reflexivity.
  assert (HY : maximum (y v0) (y v1) (y v2) + substep =
               maximum (y v0) (y v1) (y v2) + 256) by reflexivity.
  set (hx := maximum (x v0) (x v1) (x v2) + substep) in *.
  set (hy := maximum (y v0) (y v1) (y v2) + substep) in *.
  destruct (rounds_enough lx hx) as (RX1 & RX2).
  destruct (rounds_enough ly hy) as (RY1 & RY2).
  apply (for_le_inv (list Z) Inv _ ly hy (rounds ly hy) ly mem H0);
    [lia|unfold substep; lia|exact RY1|exact RY2|].
  intros py d Hpy Hd.
  apply (for_le_inv (list Z) Inv _ lx hx (rounds lx hx) lx d Hd);
    [lia|unfold substep; lia|exact RX1|exact RX2|].
  intros px d2 Hpx Hd2.
  assert (Np : near (mkPoint px py)).
  { unfold near. cbn [x y]. lia. }
  destruct (Z.leb_spec 0 (orient2D v1 v2 (mkPoint px py))) as [W0|W0];
    [|exists d2; auto].
  destruct (Z.leb_spec 0 (orient2D v2 v0 (mkPoint px py))) as [W1|W1];
    [|exists d2; auto].
  destruct (Z.leb_spec 0 (orient2D v0 v1 (mkPoint px py))) as [W2|W2];
    [|exists d2; auto].
  cbn [andb]. apply Hmark; assumption.
Qed.

Lemma convex_bounds :
  forall area w0 w1 w2 a0 a1 a2 p lo hi,
    0 < area -> 0 <= w0 -> 0 <= w1 -> 0 <= w2 ->
    w0 + w1 + w2 = area ->
    area * p = w0 * a0 + w1 * a1 + w2 * a2 ->
    lo <= a0 <= hi -> lo <= a1 <= hi -> lo <= a2 <= hi ->
    lo <= p <= hi.
Proof.
  intros area w0 w1 w2 a0 a1 a2 p lo hi Ha W0 W1 W2 Hsum Hp A0 A1 A2.
  assert (L0 : w0 * lo <= w0 * a0) by (apply Z.mul_le_mono_nonneg_l; lia).
  assert (L1 : w1 * lo <= w1 * a1) by (apply Z.mul_le_mono_nonneg_l; lia).
  assert (L2 : w2 * lo <= w2 * a2) by (apply Z.mul_le_mono_nonneg_l; lia).
  assert (U0 : w0 * a0 <= w0 * hi) by (apply Z.mul_le_mono_nonneg_l; lia).
  assert (U1 : w1 * a1 <= w1 * hi) by (apply Z.mul_le_mono_nonneg_l; lia).
  assert (U2 : w2 * a2 <= w2 * hi) by (apply Z.mul_le_mono_nonneg_l; lia).
  assert (El : area * lo = w0 * lo + w1 * lo + w2 * lo) by (rewrite <- Hsum; ring).
  assert (Eh : area * hi = w0 * hi + w1 * hi + w2 * hi) by (rewrite <- Hsum; ring).
  split; apply (Z.mul_le_mono_pos_l _ _ area Ha); lia.
Qed.

(** X15: back-face culling.  A triangle whose vertices run clockwise
    (negative doubled area) has no sample accepted by all three edge
    functions, so [rasterizeTriangle2] leaves the mask as it was. *)
Theorem clockwise_triangle_marks_nothing :
  forall (width : Z) (mem : list Z) (v0 v1 v2 : Point),
    small v0 -> small v1 -> small v2 ->
    orient2D v0 v1 v2 < 0 ->
    rasterizeTriangle2 width mem v0 v1 v2 = Some mem.
Proof.
  intros width mem v0 v1 v2 S0 S1 S2 Hcw.
  destruct (rasterizeTriangle2_inv (fun d => d = mem) width mem v0 v1 v2
              S0 S1 S2 eq_refl) as (mem' & E & ->); [|exact E].
  intros px py d _ Np W0 W1 W2.
  pose proof (edge_functions_sum v0 v1 v2 (mkPoint px py) S0 S1 S2 Np). lia.
Qed.

(** X16: a counter-clockwise triangle whose vertices lie on the texture is
    rasterised without leaving the mask: every accepted sample lies in the
    triangle, hence on the texture, and the only thing written is a 1. *)
Theorem counterclockwise_triangle_stays_on_texture :
  forall (width height : Z) (mem : list Z) (v0 v1 v2 : Point),
    substep * width <= 536870912 ->
    substep * height <= 536870912 ->
    Z.of_nat (List.length mem) = width * height ->
    on_texture width height v0 ->
    on_texture width height v1 ->
    on_texture width height v2 ->
    0 < orient2D v0 v1 v2 ->
    exists mem',
      rasterizeTriangle2 width mem v0 v1 v2 = Some mem' /\
      List.length mem' = List.length mem /\
      forall i, nth i mem' 0 = nth i mem 0 \/ nth i mem' 0 = 1.
Proof.
  intros width height mem v0 v1 v2 Hw Hh Hlen T0 T1 T2 Hccw.
  pose proof T0 as (X0 & Y0). pose proof T1 as (X1 & Y1). pose proof T2 as (X2 & Y2).
  unfold substep in *.
  assert (S0 : small v0) by (unfold small; lia).
  assert (S1 : small v1) by (unfold small; lia).
  assert (S2 : small v2) by (unfold small; lia).
  apply (rasterizeTriangle2_inv
           (fun d => List.length d = List.length mem /\
                     forall i, nth i d 0 = nth i mem 0 \/ nth i d 0 = 1)
           width mem v0 v1 v2 S0 S1 S2); [auto|].
  intros px py d (Ld & Pd) Np W0 W1 W2.
  pose proof (edge_functions_sum v0 v1 v2 (mkPoint px py) S0 S1 S2 Np) as Hsum.
  destruct (edge_functions_weigh v0 v1 v2 (mkPoint px py) S0 S1 S2 Np)
    as (Hx & Hy).
  cbn [x y] in Hx, Hy.
  set (w0 := orient2D v1 v2 (mkPoint px py)) in *.
  set (w1 := orient2D v2 v0 (mkPoint px py)) in *.
  set (w2 := orient2D v0 v1 (mkPoint px py)) in *.
  set (area := orient2D v0 v1 v2) in *.
  assert (Bx : 0 <= px <= 256 * width - 1).
  { apply (convex_bounds area w0 w1 w2 (x v0) (x v1) (x v2)); try assumption; lia. }
  assert (By : 0 <= py <= 256 * height - 1).
  { apply (convex_bounds area w0 w1 w2 (y v0) (y v1) (y v2)); try assumption; lia. }
  unfold stepshift. rewrite !Z.shiftr_div_pow2 by lia. change (2 ^ 8) with 256.
  assert (Cx : 0 <= px / 256 < width).
  { split; [apply Z.div_pos; lia|apply Z.div_lt_upper_bound; lia]. }
  assert (Cy : 0 <= py / 256 < height).
  { split; [apply Z.div_pos; lia|apply Z.div_lt_upper_bound; lia]. }
  set (cx := px / 256) in *. set (cy := py / 256) in *.
  assert (Bi : 0 <= cy * width /\ 0 <= cx + cy * width < width * height) by nia.
  assert (Wh : width * height <= 536870912 * 536870912) by nia.
  rewrite (wrap64_id (cy * width)) by lia.
  rewrite (wrap64_id (cx + cy * width)) by lia.
  destruct (write_ok d (cx + cy * width) 1) as (d' & E & L & N); [lia|].
  exists d'. split; [exact E|]. split; [congruence|].
  intro i. specialize (N (Z.of_nat i) ltac:(lia)). rewrite Nat2Z.id in N.
  rewrite N. destruct (Z.of_nat i =? cx + cy * width); [right; reflexivity|apply Pd].
Qed.

End RasterFacts.

(** C6: with a prefab's entity in flight, "Save preview" starts a second
    job; and the callback the prefab left on its model, firing again while
    the next model's read-back counts down, issues a read-back on top of
    it, of which only one is ever finalized. *)
Lemma second_tile_job_starts_before_first_is_finalized_witness :
  let w := prefab_in_flight in
  let wp := step ext_fab_dds stub_hash stub_hash
              (OpSavePreview env_ready model_m preview_matrix) w in
  let wc := step ext_fab_dds stub_hash stub_hash (OpSecondStage env_ready model_m) w in
  (jobs_in_flight w = 1 /\ jobs_in_flight wp = 2) /\
  (render_starts (exec (update ext_fab_dds stub_hash env_ready) w) <> render_starts w ->
   isValid (m_entity_in_fly (m_tile w)) = false /\ frame_countdown (m_tile w) < 0) /\
  (jobs_in_flight wp = jobs_in_flight w + 1 /\
   m_entity_in_fly (m_tile wp) = m_entity_in_fly (m_tile w) /\
   frame_countdown (m_tile wp) = 2 /\
   texture (m_tile wp) = createTexture2D env_ready /\
   finalized wp = finalized w) /\
  (isValid (m_entity_in_fly (m_tile w)) = false ->
   jobs_in_flight wc = jobs_in_flight w + 1 /\
   frame_countdown (m_tile wc) = 2 /\
   texture (m_tile wc) = createTexture2D env_ready /\
   finalized wc = finalized w).
Proof.
  split; [split; reflexivity|].
  apply (second_tile_job_starts_before_first_is_finalized ext_fab_dds stub_hash
           stub_hash env_ready env_ready model_m preview_matrix prefab_in_flight);
    reflexivity.
Defined.

Lemma repeated_callback_overlaps_read_back :
  let w := run0 model_after_prefab init_world in
  let w' := run0 [OpSecondStage env_ready model_m] w in
  let w'' := run0 [OpUpdate env_ready; OpUpdate env_ready; OpUpdate env_ready;
                   OpUpdate env_ready] w' in
  In (EvOnLoaded model_m) (trace w) /\
  isValid (m_entity_in_fly (m_tile w)) = false /\
  frame_countdown (m_tile w) = 2 /\
  jobs_in_flight w = 1 /\
  jobs_in_flight w' = 2 /\
  read_backs w'' = 3%nat /\
  finalized w'' = 2%nat /\
  frame_countdown (m_tile w'') = -1.
Proof.
  vm_compute. repeat split; repeat (try (left; reflexivity); right).
Qed.

(** ** Instances of the further properties *)

Lemma worker_never_pops_empty_witness :
  exists older tile,
    tiles (m_texture_tile_creator one_image_pending) = older ++ [tile] /\
    tiles (m_texture_tile_creator
             (exec (createTextureTileTask_iteration ext_fab_dds stub_hash env_ready)
                   one_image_pending)) = older.
Proof.
  apply (worker_never_pops_empty ext_fab_dds stub_hash stub_hash
           [OpCreateTile env_ready "a.tga" "" Texture_TYPE] env_ready).
  reflexivity.
Defined.

Lemma worker_loop_drains_newest_first_witness :
  let w := two_images_pending in
  let w' := exec (createTextureTileTask ext_fab_dds stub_hash 3 (fun _ => env_ready)) w in
  result (createTextureTileTask ext_fab_dds stub_hash 3 (fun _ => env_ready)) w = Blocked /\
  tiles (m_texture_tile_creator w') = [] /\
  handled_requests_image w' = handled_requests_image w ++ rev ["old.tga"; "new.dds"] /\
  m_tile w' = m_tile w.
Proof.
  apply (worker_loop_drains_newest_first ext_fab_dds stub_hash
           ["old.tga"; "new.dds"] 3 (fun _ => env_ready) two_images_pending).
  - reflexivity.
  - reflexivity.
  - reflexivity.
  - simpl. lia.
Defined.

Lemma worker_writes_only_its_cache_path_witness :
  let w := one_image_pending in
  let w' := exec (createTextureTileTask_iteration ext_fab_dds stub_hash env_ready) w in
  trace w' = trace w ++ events_since w w' /\
  flat_map (written env_ready) (events_since w w') =
    if decodes ext_fab_dds env_ready "a.tga"
    then (if encode_fails env_ready (tile_path (stub_hash "a.tga"))
          then [] else [tile_path (stub_hash "a.tga")])
    else (if copyFile_ok env_ready tile_texture_dds (tile_path (stub_hash "a.tga"))
          then [tile_path (stub_hash "a.tga")] else []).
Proof.
  apply (worker_writes_only_its_cache_path ext_fab_dds stub_hash env_ready
           one_image_pending [] "a.tga").
  repeat split.
Defined.

Lemma update_waits_for_front_resource_witness :
  run ext_fab_dds stub_hash stub_hash (map OpUpdate [env_loading; env_loading])
      one_model_pending = one_model_pending.
Proof.
  apply (update_waits_for_front_resource ext_fab_dds stub_hash stub_hash
           [env_loading; env_loading] one_model_pending model_1 []).
  - reflexivity.
  - reflexivity.
  - reflexivity.
  - repeat constructor.
Defined.

Lemma update_blocked_while_entity_in_flight_witness :
  run ext_fab_dds stub_hash stub_hash (map OpUpdate [env_ready; env_ready])
      prefab_in_flight = prefab_in_flight.
Proof.
  apply (update_blocked_while_entity_in_flight ext_fab_dds stub_hash stub_hash
           [env_ready; env_ready] prefab_in_flight).
  - reflexivity.
  - reflexivity.
Defined.

Lemma ring_requests_are_served_in_order_witness :
  handled_requests_3d ext_fab_dds
    (fair_run ext_fab_dds stub_hash stub_hash sched41
       (run ext_fab_dds stub_hash stub_hash (map submit two_models_one_image)
            init_world)) =
  requests_3d ext_fab_dds two_models_one_image.
Proof.
  apply (ring_requests_are_served_in_order ext_fab_dds stub_hash stub_hash
           two_models_one_image sched41).
  - unfold sched41. simpl. repeat (constructor; [exact env_ready_fair|]). constructor.
  - vm_compute. lia.
  - vm_compute. lia.
Defined.

Lemma model_tile_is_written_on_fourth_update_witness :
  let model := mkResource Model_TYPE "1.msh" in
  let w' := run ext_fab_dds stub_hash stub_hash
              [OpCreateTile env_ready "1.msh" "" Model_TYPE;
               OpUpdate env_ready; OpUpdate env_ready; OpUpdate env_ready;
               OpUpdate env_ready] init_world in
  trace w' = trace init_world ++
    [EvLoad model; EvRenderTile model;
     EvCreateEntity (createEntity env_ready);
     EvSetModelInstancePath (createEntity env_ready) "1.msh";
     EvSetCameraMatrix; EvPipelineRender;
     EvCreateTexture (createTexture2D env_ready);
     EvBlit (createTexture2D env_ready);
     EvReadTexture (createTexture2D env_ready);
     EvDestroyEntity (createEntity env_ready);
     EvUnload model;
     EvFileWrite (tile_path (stub_hash "1.msh"));
     EvDestroyTexture (createTexture2D env_ready)] /\
  m_tile w' = mkTileData (m_entity_in_fly (m_tile init_world)) (-1)
                (stub_hash "1.msh") (createTexture2D env_ready) [] [] /\
  m_texture_tile_creator w' = m_texture_tile_creator init_world.
Proof.
  apply (model_tile_is_written_on_fourth_update ext_fab_dds stub_hash stub_hash
           env_ready env_ready env_ready env_ready env_ready "1.msh" "" init_world);
    reflexivity.
Defined.

Lemma failed_load_is_dropped_without_unload_witness :
  let w := one_model_pending in
  let w' := exec (update ext_fab_dds stub_hash env_load_fails) w in
  trace w' = trace w ++ EvLogFailedToLoadResource (getPath model_1)
               :: map (fun p => EvLoad (load ext_fab_dds p)) (refill (paths (m_tile w))) /\
  queue (m_tile w') = [] ++ map (load ext_fab_dds) (refill (paths (m_tile w))) /\
  paths (m_tile w') = removelast (paths (m_tile w)) /\
  frame_countdown (m_tile w') = frame_countdown (m_tile w) /\
  m_entity_in_fly (m_tile w') = m_entity_in_fly (m_tile w).
Proof.
  apply (failed_load_is_dropped_without_unload ext_fab_dds stub_hash
           env_load_fails one_model_pending model_1 []).
  - change (tile_inv ext_fab_dds
              (m_tile (exec (createTile ext_fab_dds env_ready "1.msh" "" Model_TYPE)
                            init_world))).
    apply (createTile_effect ext_fab_dds stub_hash stub_hash). apply init_tile_inv.
  - reflexivity.
  - reflexivity.
  - reflexivity.
  - reflexivity.
Defined.

Lemma flipY_mirrors_rows_witness :
  exists flipped,
    EnvironmentProbePlugin.flipY face_2x2 2 = Some flipped /\
    EnvironmentProbePlugin.face flipped 2 /\
    forall x y, 0 <= x < 2 -> 0 <= y < 2 ->
      EnvironmentProbePlugin.pixel flipped 2 x y =
      EnvironmentProbePlugin.pixel face_2x2 2 x (2 - 1 - y).
Proof.
  apply (flipY_mirrors_rows face_2x2 2).
  unfold EnvironmentProbePlugin.face, EnvironmentProbePlugin.INT_MAX. simpl. lia.
Defined.

Lemma flipX_mirrors_columns_witness :
  exists flipped,
    EnvironmentProbePlugin.flipX face_2x2 2 = Some flipped /\
    EnvironmentProbePlugin.face flipped 2 /\
    forall x y, 0 <= x < 2 -> 0 <= y < 2 ->
      EnvironmentProbePlugin.pixel flipped 2 x y =
      EnvironmentProbePlugin.pixel face_2x2 2 (2 - 1 - x) y.
Proof.
  apply (flipX_mirrors_columns face_2x2 2).
  unfold EnvironmentProbePlugin.face, EnvironmentProbePlugin.INT_MAX. simpl. lia.
Defined.

Lemma flipY_twice_is_identity_witness :
  Buffer.and_then (EnvironmentProbePlugin.flipY face_2x2 2)
    (fun flipped => EnvironmentProbePlugin.flipY flipped 2) = Some face_2x2.
Proof.
  apply (flipY_twice_is_identity face_2x2 2).
  unfold EnvironmentProbePlugin.face, EnvironmentProbePlugin.INT_MAX. simpl. lia.
Defined.

Lemma flipX_twice_is_identity_witness :
  Buffer.and_then (EnvironmentProbePlugin.flipX face_2x2 2)
    (fun flipped => EnvironmentProbePlugin.flipX flipped 2) = Some face_2x2.
Proof.
  apply (flipX_twice_is_identity face_2x2 2).
  unfold EnvironmentProbePlugin.face, EnvironmentProbePlugin.INT_MAX. simpl. lia.
Defined.

Lemma clockwise_triangle_marks_nothing_witness :
  FurPainter.rasterizeTriangle2 2 mask_2x2 corner_00 corner_01 corner_10
  = Some mask_2x2.
Proof.
  apply (clockwise_triangle_marks_nothing 2 mask_2x2 corner_00 corner_01 corner_10).
  - unfold FurPainter.small. simpl. lia.
  - unfold FurPainter.small. simpl. lia.
  - unfold FurPainter.small. simpl. lia.
  - reflexivity.
Defined.

Lemma counterclockwise_triangle_stays_on_texture_witness :
  FurPainter.rasterizeTriangle2 2 mask_2x2 corner_00 far_x far_y
  = Some [1; 0; 0; 0] /\
  exists mem',
    FurPainter.rasterizeTriangle2 2 mask_2x2 corner_00 far_x far_y = Some mem' /\
    List.length mem' = List.length mask_2x2 /\
    forall i, nth i mem' 0 = nth i mask_2x2 0 \/ nth i mem' 0 = 1.
Proof.
  split; [vm_compute; reflexivity|].
  apply (counterclockwise_triangle_stays_on_texture 2 2 mask_2x2
           corner_00 far_x far_y).
  - unfold FurPainter.substep. lia.
  - unfold FurPainter.substep. lia.
  - reflexivity.
  - unfold FurPainter.on_texture, FurPainter.substep. simpl. lia.
  - unfold FurPainter.on_texture, FurPainter.substep. simpl. lia.
  - unfold FurPainter.on_texture, FurPainter.substep. simpl. lia.
  - reflexivity.
Defined.
